(** * cxoUtils: ownership and initialization discipline of cx_Oracle's utility layer

    A shallow embedding of [src/cxoUtils.c].  The three functions studied here
    ([cxoUtils_initializeDPI], [cxoUtils_processJsonArg] and
    [cxoUtils_processSodaDocArg]) are branch-and-delegate code: what they do
    is the sequence of calls they make into the Python C API, into ODPI-C and
    into the sibling modules cxoBuffer and cxoError, together with the way
    they thread the two module globals.  The embedding therefore represents a
    C function as a tree of calls (a free monad over the signature of the
    collaborators), and the collaborators themselves as an arbitrary handler
    over an arbitrary state.  A statement quantified over every handler is a
    statement about every exit path of the C function. *)

From Stdlib Require Import ZArith.
From stdpp Require Import gmap strings list.

Local Open Scope Z_scope.

(** ** Data model *)

(** What the type tests of the source can tell about a Python object.
    [PyDict_Check] and [PyList_Check] accept subclasses, so a kind stands for
    a type and its subclasses.  A string or bytes object carries its
    contents, a [cxoSodaDoc] object its native handle ([doc->handle]). *)
Definition dpiSodaDoc := positive.
Definition dpiSodaDb := positive.
Definition dpiContext := positive.

Inductive PyKind : Type :=
| KDict
| KList
| KUnicode (text : string)
| KBytes (data : string)
| KSodaDoc (handle : option dpiSodaDoc)
| KOther.

(** A non-NULL [PyObject *]: the address of the object and the kind of the
    object that lives there.  A possibly-NULL pointer is an [option]. *)
Record PyObject : Type := { ob_addr : positive; ob_kind : PyKind }.

#[global] Instance PyKind_eq_dec : EqDecision PyKind.
Proof. solve_decision. Defined.
#[global] Instance PyObject_eq_dec : EqDecision PyObject.
Proof. solve_decision. Defined.

Definition PyDict_Check (o : PyObject) : bool :=
  match ob_kind o with KDict => true | _ => false end.
Definition PyList_Check (o : PyObject) : bool :=
  match ob_kind o with KList => true | _ => false end.
(** [PyObject_TypeCheck(arg, &cxoPyTypeSodaDoc)] *)
Definition PyObject_TypeCheck_SodaDoc (o : PyObject) : bool :=
  match ob_kind o with KSodaDoc _ => true | _ => false end.
(** [doc->handle], for [doc] the argument seen as a [cxoSodaDoc] *)
Definition doc_handle (o : PyObject) : option dpiSodaDoc :=
  match ob_kind o with KSodaDoc h => h | _ => None end.

(** The exception classes the source names. *)
Inductive PyExc : Type := cxoProgrammingErrorException | PyExc_TypeError.
#[global] Instance PyExc_eq_dec : EqDecision PyExc.
Proof. solve_decision. Defined.

(** [cxoBuffer] (declared in cxoModule.h): the source reads [ptr] and
    [size]; [obj] is the Python object that keeps the bytes alive. *)
Record cxoBuffer : Type :=
  { ptr : option string; size : Z; obj : option PyObject }.
#[global] Instance cxoBuffer_eq_dec : EqDecision cxoBuffer.
Proof. solve_decision. Defined.

(** [cxoSodaDatabase]: only [db->handle] is read. *)
Record cxoSodaDatabase : Type := { db_handle : option dpiSodaDb }.

(** [dpiContextCreateParams] (ODPI-C).  The source names three of the
    fields; the others travel through [memcpy]/[memset] untouched. *)
Record dpiContextCreateParams : Type :=
  { defaultDriverName : option string;
    defaultEncoding : option string;
    loadErrorUrl : option string;
    oracleClientLibDir : option string;
    oracleClientConfigDir : option string }.
#[global] Instance dpiContextCreateParams_eq_dec : EqDecision dpiContextCreateParams.
Proof. solve_decision. Defined.

(** [memset(&localParams, 0, sizeof(dpiContextCreateParams))] *)
Definition zeroParams : dpiContextCreateParams :=
  {| defaultDriverName := None; defaultEncoding := None; loadErrorUrl := None;
     oracleClientLibDir := None; oracleClientConfigDir := None |}.

(** [dpiVersionInfo] and [dpiErrorInfo] are ODPI-C structs that the source
    only passes along; they are kept as opaque snapshots. *)
Record dpiVersionInfo : Type := { fullVersionNum : Z }.
Record dpiErrorInfo : Type := { code : Z; message : string }.
#[global] Instance dpiVersionInfo_eq_dec : EqDecision dpiVersionInfo.
Proof. solve_decision. Defined.
#[global] Instance dpiErrorInfo_eq_dec : EqDecision dpiErrorInfo.
Proof. solve_decision. Defined.

(** The two module globals that [cxoUtils_initializeDPI] reads and writes. *)
Record Globals : Type :=
  { cxoDpiContext : option dpiContext;
    cxoClientVersionInfo : dpiVersionInfo }.
#[global] Instance Globals_eq_dec : EqDecision Globals.
Proof. solve_decision. Defined.

(** ** The collaborators, as a signature *)

(** One constructor per external function the source calls, with the
    arguments the source passes.  Output parameters are part of the answer:
    a call that receives [&x] answers with its status and the contents of
    [x] after the call. *)
Inductive Call : Type :=
(* Python C API *)
| PyObject_CallFunctionObjArgs_cxoJsonDumpFunction (arg : PyObject)
| Py_DECREF (o : PyObject)
| PyErr_SetString (exc : PyExc) (msg : string)
(* cxoBuffer *)
| cxoBuffer_fromObject (o : option PyObject) (encoding : string)
| cxoBuffer_clear (buf : cxoBuffer)
(* cxoError *)
| cxoError_raiseFromString (exc : PyExc) (msg : string)
| cxoError_raiseFromInfo (info : dpiErrorInfo)
| cxoError_raiseAndReturnInt
(* ODPI-C *)
| dpiContext_createWithParams (major minor : Z) (params : dpiContextCreateParams)
| dpiContext_getClientVersion (ctx : option dpiContext) (cur : dpiVersionInfo)
| dpiContext_destroy (ctx : option dpiContext)
| dpiSodaDoc_addRef (h : option dpiSodaDoc)
| dpiSodaDb_createDocument (db : option dpiSodaDb)
    (key : option string) (keyLength : Z)
    (content : option string) (contentLength : Z)
    (mediaType : option string) (mediaTypeLength : Z)
    (flags : Z) (cur : option dpiSodaDoc).

#[global] Instance Call_eq_dec : EqDecision Call.
Proof. solve_decision. Defined.

(** The type of the answer to each call. *)
Definition Resp (c : Call) : Type :=
  match c with
  | PyObject_CallFunctionObjArgs_cxoJsonDumpFunction _ => option PyObject
  | Py_DECREF _ => unit
  | PyErr_SetString _ _ => unit
  | cxoBuffer_fromObject _ _ => Z * cxoBuffer
  | cxoBuffer_clear _ => unit
  | cxoError_raiseFromString _ _ => Z
  | cxoError_raiseFromInfo _ => Z
  | cxoError_raiseAndReturnInt => Z
  | dpiContext_createWithParams _ _ _ => Z * option dpiContext * dpiErrorInfo
  | dpiContext_getClientVersion _ _ => Z * dpiVersionInfo
  | dpiContext_destroy _ => Z
  | dpiSodaDoc_addRef _ => Z
  | dpiSodaDb_createDocument _ _ _ _ _ _ _ _ _ => Z * option dpiSodaDoc
  end.

(** ** Programs over the signature *)

Inductive Prog (A : Type) : Type :=
| Ret (a : A)
| Vis (c : Call) (k : Resp c -> Prog A).
Arguments Ret {A} a.
Arguments Vis {A} c k.

Fixpoint bind {A B : Type} (p : Prog A) (f : A -> Prog B) : Prog B :=
  match p with
  | Ret a => f a
  | Vis c k => Vis c (fun r => bind (k r) f)
  end.

Definition call (c : Call) : Prog (Resp c) := Vis c Ret.

#[global] Instance Prog_ret : MRet Prog := @Ret.
#[global] Instance Prog_bind : MBind Prog := fun A B f p => bind p f.

(** A handler gives every call its answer and its effect on a state of the
    handler's choosing. *)
Definition Handler (S : Type) : Type := forall c : Call, S -> Resp c * S.

(** Running a program: the result, the final state and the calls made, in
    order. *)
Fixpoint run {S A : Type} (h : Handler S) (p : Prog A) (s : S)
  : A * S * list Call :=
  match p with
  | Ret a => (a, s, [])
  | Vis c k =>
      let '(r, s1) := h c s in
      let '(a, s2, tr) := run h (k r) s1 in
      (a, s2, c :: tr)
  end.

(** How many times a given call occurs in a trace. *)
Definition occurrences (c : Call) (tr : list Call) : nat :=
  length (filter (fun c' => c' = c) tr).

(** How many buffers a trace releases, whichever they are. *)
Definition is_buffer_clear (c : Call) : bool :=
  match c with cxoBuffer_clear _ => true | _ => false end.
Definition buffer_clears (tr : list Call) : nat :=
  length (filter (fun c => is_buffer_clear c = true) tr).

(** ** The functions of cxoUtils.c *)

Section cxoUtils.

(** Macros of cxoModule.h and of ODPI-C's dpi.h; their values play no role. *)
Variable CXO_DRIVER_NAME : string.
Variables DPI_MAJOR_VERSION DPI_MINOR_VERSION DPI_SODA_FLAGS_DEFAULT : Z.

(** The assignments to [localParams] (lines 127-138). *)
Definition effectiveParams (params : option dpiContextCreateParams)
  : dpiContextCreateParams :=
  let localParams := match params with Some p => p | None => zeroParams end in
  {| defaultEncoding := Some "UTF-8"%string;
     defaultDriverName :=
       match defaultDriverName localParams with
       | None => Some CXO_DRIVER_NAME
       | Some d => Some d
       end;
     loadErrorUrl :=
       match loadErrorUrl localParams with
       | None => Some ("https://cx-oracle.readthedocs.io/en/" ++
                       "latest/user_guide/installation.html")%string
       | Some u => Some u
       end;
     oracleClientLibDir := oracleClientLibDir localParams;
     oracleClientConfigDir := oracleClientConfigDir localParams |}.

(** [cxoUtils_initializeDPI] (lines 109-152).  The globals are passed in and
    handed back with the status. *)
Definition cxoUtils_initializeDPI (params : option dpiContextCreateParams)
    (g : Globals) : Prog (Z * Globals) :=
  match cxoDpiContext g with
  | Some _ =>
      match params with
      | None => mret (0, g)
      | Some _ =>
          call (cxoError_raiseFromString cxoProgrammingErrorException
                  "Oracle Client library has already been initialized");;
          mret (-1, g)
      end
  | None =>
      let localParams := effectiveParams params in
      '(status, context, errorInfo) ←
        call (dpiContext_createWithParams DPI_MAJOR_VERSION DPI_MINOR_VERSION
                localParams);
      if status <? 0 then
        r ← call (cxoError_raiseFromInfo errorInfo);
        mret (r, g)
      else
        '(status, versionInfo) ←
          call (dpiContext_getClientVersion context (cxoClientVersionInfo g));
        let g := {| cxoDpiContext := cxoDpiContext g;
                    cxoClientVersionInfo := versionInfo |} in
        if status <? 0 then
          call cxoError_raiseAndReturnInt;;
          call (dpiContext_destroy context);;
          mret (-1, g)
        else
          mret (0, {| cxoDpiContext := context;
                      cxoClientVersionInfo := cxoClientVersionInfo g |})
  end.

(** Lines 171-176 of [cxoUtils_processJsonArg]: what follows the optional
    conversion.  [converted] is the local flag of the source. *)
Definition processJsonArg_encode (arg : option PyObject) (converted : bool)
  : Prog (Z * cxoBuffer) :=
  '(status, buffer) ← call (cxoBuffer_fromObject arg "UTF-8");
  if status <? 0 then mret (-1, buffer)
  else
    match converted, arg with
    | true, Some o => call (Py_DECREF o);; mret (0, buffer)
    | _, _ => mret (0, buffer)
    end.

(** [cxoUtils_processJsonArg] (lines 161-177).  [buffer] is what the
    caller's [cxoBuffer] holds on entry. *)
Definition cxoUtils_processJsonArg (arg : option PyObject) (buffer : cxoBuffer)
  : Prog (Z * cxoBuffer) :=
  match arg with
  | Some a =>
      if PyDict_Check a || PyList_Check a then
        r ← call (PyObject_CallFunctionObjArgs_cxoJsonDumpFunction a);
        match r with
        | None => mret (-1, buffer)
        | Some s => processJsonArg_encode (Some s) true
        end
      else processJsonArg_encode arg false
  | None => processJsonArg_encode arg false
  end.

(** [cxoUtils_processSodaDocArg] (lines 187-220).  [handle] is what the
    caller's [dpiSodaDoc *] holds on entry. *)
Definition cxoUtils_processSodaDocArg (db : cxoSodaDatabase) (arg : PyObject)
    (handle : option dpiSodaDoc) : Prog (Z * option dpiSodaDoc) :=
  if PyObject_TypeCheck_SodaDoc arg then
    status ← call (dpiSodaDoc_addRef (doc_handle arg));
    if status <? 0 then
      r ← call cxoError_raiseAndReturnInt;
      mret (r, handle)
    else mret (0, doc_handle arg)
  else if PyDict_Check arg || PyList_Check arg then
    r ← call (PyObject_CallFunctionObjArgs_cxoJsonDumpFunction arg);
    match r with
    | None => mret (-1, handle)
    | Some arg =>
        '(status, buffer) ← call (cxoBuffer_fromObject (Some arg) "UTF-8");
        if status <? 0 then
          call (Py_DECREF arg);;
          mret (-1, handle)
        else
          call (Py_DECREF arg);;
          '(status, handle) ←
            call (dpiSodaDb_createDocument (db_handle db) None 0
                    (ptr buffer) (size buffer) None 0
                    DPI_SODA_FLAGS_DEFAULT handle);
          if status <? 0 then
            call (cxoBuffer_clear buffer);;
            r ← call cxoError_raiseAndReturnInt;
            mret (r, handle)
          else
            call (cxoBuffer_clear buffer);;
            mret (0, handle)
    end
  else
    call (PyErr_SetString PyExc_TypeError
            "value must be a SODA document or a dictionary or list");;
    mret (-1, handle).

End cxoUtils.

(** ** Observations on a run *)

(** The calls a run makes, and what it returns. *)
Definition trace {S A : Type} (h : Handler S) (p : Prog A) (s : S) : list Call :=
  (run h p s).2.
Definition result {S A : Type} (h : Handler S) (p : Prog A) (s : S) : A :=
  (run h p s).1.1.
Definition final {S A : Type} (h : Handler S) (p : Prog A) (s : S) : S :=
  (run h p s).1.2.

(** How many references a trace drops, whichever they are. *)
Definition is_decref (c : Call) : bool :=
  match c with Py_DECREF _ => true | _ => false end.
Definition decrefs (tr : list Call) : nat :=
  length (filter (fun c => is_decref c = true) tr).

(** The test of lines 165 and 198: a dictionary or a list. *)
Definition is_structured (o : PyObject) : bool :=
  PyDict_Check o || PyList_Check o.

(** ** An allocation-tracking runtime *)

(** Which collaborator calls fail during a run.  [dumps_text] is the JSON
    text the serializer answers with, [None] when it raises. *)
Record Faults : Type :=
  { dumps_text : option string;
    encode_fails : bool;
    addRef_fails : bool;
    createDocument_fails : bool;
    createContext_fails : bool;
    getClientVersion_fails : bool }.

(** The state of the test double: the reference count of every live Python
    object and of every live native document, the live native contexts, the
    error indicator and the plan of failures. *)
Record Runtime : Type :=
  { objects : gmap positive nat;
    documents : gmap positive nat;
    contexts : gset positive;
    raised : bool;
    faults : Faults }.

Definition with_objects (f : gmap positive nat -> gmap positive nat)
    (rt : Runtime) : Runtime :=
  {| objects := f (objects rt); documents := documents rt;
     contexts := contexts rt; raised := raised rt; faults := faults rt |}.
Definition with_documents (f : gmap positive nat -> gmap positive nat)
    (rt : Runtime) : Runtime :=
  {| objects := objects rt; documents := f (documents rt);
     contexts := contexts rt; raised := raised rt; faults := faults rt |}.
Definition with_contexts (f : gset positive -> gset positive)
    (rt : Runtime) : Runtime :=
  {| objects := objects rt; documents := documents rt;
     contexts := f (contexts rt); raised := raised rt; faults := faults rt |}.
Definition raise (rt : Runtime) : Runtime :=
  {| objects := objects rt; documents := documents rt;
     contexts := contexts rt; raised := true; faults := faults rt |}.

(** Taking and dropping one reference; the last drop frees the entry. *)
Definition incref (a : positive) (m : gmap positive nat) : gmap positive nat :=
  <[a := S (default 0%nat (m !! a))]> m.
Definition decref (a : positive) (m : gmap positive nat) : gmap positive nat :=
  match m !! a with
  | Some (S (S n)) => <[a := S n]> m
  | Some _ => delete a m
  | None => m
  end.
(** A new entry with one reference, at an address not in use. *)
Definition fresh_addr (m : gmap positive nat) : positive := fresh (dom m).
Definition alloc (m : gmap positive nat) : gmap positive nat :=
  <[fresh_addr m := 1%nat]> m.

Definition emptyBuffer : cxoBuffer := {| ptr := None; size := 0; obj := None |}.
Definition harnessVersion : dpiVersionInfo := {| fullVersionNum := 1900000000 |}.
Definition harnessError : dpiErrorInfo :=
  {| code := 1; message := "DPI-1047" |}.
Definition noError : dpiErrorInfo := {| code := 0; message := EmptyString |}.

(** Modelled from the spec: the bodies of the collaborators are not under
    src; each answers as the spec describes it.  The serializer yields a new owned
    string; encoding a string yields a buffer that owns a new bytes object,
    encoding a bytes object shares it; clearing a buffer drops what it owns;
    the cxoError helpers set the error indicator and answer -1; creating a
    context or a document yields a new native handle, adding a document
    reference bumps its count, destroying a context ends it. *)
Definition harness : Handler Runtime :=
  fun c rt =>
    match c as c0 return Resp c0 * Runtime with
    | PyObject_CallFunctionObjArgs_cxoJsonDumpFunction _ =>
        match dumps_text (faults rt) with
        | None => (None, raise rt)
        | Some text =>
            (Some {| ob_addr := fresh_addr (objects rt);
                     ob_kind := KUnicode text |},
             with_objects alloc rt)
        end
    | Py_DECREF o => (tt, with_objects (decref (ob_addr o)) rt)
    | PyErr_SetString _ _ => (tt, raise rt)
    | cxoBuffer_fromObject o _ =>
        match o with
        | None => ((0, emptyBuffer), rt)
        | Some o =>
            match ob_kind o with
            | KUnicode text =>
                if encode_fails (faults rt) then ((-1, emptyBuffer), raise rt)
                else
                  ((0, {| ptr := Some text;
                          size := Z.of_nat (String.length text);
                          obj := Some {| ob_addr := fresh_addr (objects rt);
                                         ob_kind := KBytes text |} |}),
                   with_objects alloc rt)
            | KBytes data =>
                ((0, {| ptr := Some data;
                        size := Z.of_nat (String.length data);
                        obj := Some o |}),
                 with_objects (incref (ob_addr o)) rt)
            | _ => ((-1, emptyBuffer), raise rt)
            end
        end
    | cxoBuffer_clear buf =>
        match obj buf with
        | None => (tt, rt)
        | Some o => (tt, with_objects (decref (ob_addr o)) rt)
        end
    | cxoError_raiseFromString _ _ => (-1, raise rt)
    | cxoError_raiseFromInfo _ => (-1, raise rt)
    | cxoError_raiseAndReturnInt => (-1, raise rt)
    | dpiContext_createWithParams _ _ _ =>
        if createContext_fails (faults rt) then ((-1, None, harnessError), rt)
        else
          ((0, Some (fresh (contexts rt)), noError),
           with_contexts (fun X => {[fresh (contexts rt)]} ∪ X) rt)
    | dpiContext_getClientVersion _ cur =>
        if getClientVersion_fails (faults rt) then ((-1, cur), rt)
        else ((0, harnessVersion), rt)
    | dpiContext_destroy ctx =>
        match ctx with
        | None => (-1, rt)
        | Some c => (0, with_contexts (fun X => X ∖ {[c]}) rt)
        end
    | dpiSodaDoc_addRef h =>
        match h with
        | Some d =>
            if addRef_fails (faults rt) then (-1, rt)
            else (0, with_documents (incref d) rt)
        | None => (-1, rt)
        end
    | dpiSodaDb_createDocument _ _ _ _ _ _ _ _ cur =>
        if createDocument_fails (faults rt) then ((-1, cur), rt)
        else
          ((0, Some (fresh_addr (documents rt))),
           with_documents alloc rt)
    end.

(** A runtime with one live dictionary at address 1 and nothing else. *)
Definition theDict : PyObject := {| ob_addr := 1; ob_kind := KDict |}.
Definition startRuntime (f : Faults) : Runtime :=
  {| objects := {[ 1%positive := 1%nat ]}; documents := ∅; contexts := ∅;
     raised := false; faults := f |}.
Definition noFaults : Faults :=
  {| dumps_text := Some "{}"%string; encode_fails := false;
     addRef_fails := false; createDocument_fails := false;
     createContext_fails := false; getClientVersion_fails := false |}.

(** ** Concrete inputs *)

Definition theDb : cxoSodaDatabase := {| db_handle := Some 7%positive |}.
(** What the runtime's serializer returns for [theDict], and the buffer its
    encoder builds from that. *)
Definition theJson : PyObject := {| ob_addr := 2; ob_kind := KUnicode "{}" |}.
Definition theBuffer : cxoBuffer :=
  {| ptr := Some "{}"%string; size := 2;
     obj := Some {| ob_addr := 3; ob_kind := KBytes "{}" |} |}.
Definition createDocumentFails : Faults :=
  {| dumps_text := Some "{}"%string; encode_fails := false;
     addRef_fails := false; createDocument_fails := true;
     createContext_fails := false; getClientVersion_fails := false |}.
Definition encodeFails : Faults :=
  {| dumps_text := Some "{}"%string; encode_fails := true;
     addRef_fails := false; createDocument_fails := false;
     createContext_fails := false; getClientVersion_fails := false |}.
Definition getClientVersionFails : Faults :=
  {| dumps_text := Some "{}"%string; encode_fails := false;
     addRef_fails := false; createDocument_fails := false;
     createContext_fails := false; getClientVersion_fails := true |}.
Definition uninitialized : Globals :=
  {| cxoDpiContext := None;
     cxoClientVersionInfo := {| fullVersionNum := 0 |} |}.

(** ** The Python-only helpers of cxoUtils.c *)

(** [cxoUtils_formatString], [cxoUtils_getBooleanValue] and
    [cxoUtils_getModuleAndName] call four more functions of the Python C
    API.  Their signature extends the one above. *)
Inductive HostCall : Type :=
| OfCall (c : Call)
| PyUnicode_DecodeASCII (s : string) (length : Z) (errors : option string)
| PyUnicode_Format (format args : PyObject)
| PyObject_IsTrue (o : PyObject)
| PyObject_GetAttrString (o : PyObject) (attr_name : string).

#[global] Instance HostCall_eq_dec : EqDecision HostCall.
Proof. solve_decision. Defined.

Definition HostResp (c : HostCall) : Type :=
  match c with
  | OfCall c => Resp c
  | PyUnicode_DecodeASCII _ _ _ => option PyObject
  | PyUnicode_Format _ _ => option PyObject
  | PyObject_IsTrue _ => Z
  | PyObject_GetAttrString _ _ => option PyObject
  end.

Inductive HostProg (A : Type) : Type :=
| HRet (a : A)
| HVis (c : HostCall) (k : HostResp c -> HostProg A).
Arguments HRet {A} a.
Arguments HVis {A} c k.

Fixpoint hostBind {A B : Type} (p : HostProg A) (f : A -> HostProg B)
  : HostProg B :=
  match p with
  | HRet a => f a
  | HVis c k => HVis c (fun r => hostBind (k r) f)
  end.

Definition hostCall (c : HostCall) : HostProg (HostResp c) := HVis c HRet.

#[global] Instance HostProg_ret : MRet HostProg := @HRet.
#[global] Instance HostProg_bind : MBind HostProg :=
  fun A B f p => hostBind p f.

Definition HostHandler (S : Type) : Type :=
  forall c : HostCall, S -> HostResp c * S.

Fixpoint hostRun {S A : Type} (h : HostHandler S) (p : HostProg A) (s : S)
  : A * S * list HostCall :=
  match p with
  | HRet a => (a, s, [])
  | HVis c k =>
      let '(r, s1) := h c s in
      let '(a, s2, tr) := hostRun h (k r) s1 in
      (a, s2, c :: tr)
  end.

Definition hostTrace {S A : Type} (h : HostHandler S) (p : HostProg A) (s : S)
  : list HostCall := (hostRun h p s).2.
Definition hostResult {S A : Type} (h : HostHandler S) (p : HostProg A) (s : S)
  : A := (hostRun h p s).1.1.

Definition hostOccurrences (c : HostCall) (tr : list HostCall) : nat :=
  length (filter (fun c' => c' = c) tr).
Definition is_host_decref (c : HostCall) : bool :=
  match c with OfCall (Py_DECREF _) => true | _ => false end.
Definition hostDecrefs (tr : list HostCall) : nat :=
  length (filter (fun c => is_host_decref c = true) tr).
Definition is_getattr (c : HostCall) : bool :=
  match c with PyObject_GetAttrString _ _ => true | _ => false end.

(** C strings: what [strlen] and [strcmp] see of a string is the part
    before its first NUL. *)
Definition is_nul (c : Ascii.ascii) : bool := Ascii.eqb c Ascii.zero.

Fixpoint c_str (s : string) : string :=
  match s with
  | EmptyString => EmptyString
  | String c s' => if is_nul c then EmptyString else String c (c_str s')
  end.

Fixpoint strlen (s : string) : nat :=
  match s with
  | EmptyString => 0%nat
  | String c s' => if is_nul c then 0%nat else S (strlen s')
  end.

Definition uchar (c : Ascii.ascii) : Z := Z.of_nat (Ascii.nat_of_ascii c).

Fixpoint strcmp (a b : string) : Z :=
  match a, b with
  | EmptyString, EmptyString => 0
  | EmptyString, String d _ => 0 - uchar d
  | String c _, EmptyString => uchar c
  | String c a', String d b' =>
      if Ascii.eqb c d then (if is_nul c then 0 else strcmp a' b')
      else uchar c - uchar d
  end.

(** [cxoUtils_formatString] (lines 18-39). *)
Definition cxoUtils_formatString (format : string) (args : option PyObject)
  : HostProg (option PyObject) :=
  match args with
  | None => mret None
  | Some args =>
      formatObj ← hostCall (PyUnicode_DecodeASCII format
                              (Z.of_nat (strlen format)) None);
      match formatObj with
      | None =>
          hostCall (OfCall (Py_DECREF args));;
          mret None
      | Some formatObj =>
          result ← hostCall (PyUnicode_Format formatObj args);
          hostCall (OfCall (Py_DECREF args));;
          hostCall (OfCall (Py_DECREF formatObj));;
          mret result
      end
  end.

(** The byte order of the host, and the 32-bit value the host reads from
    four consecutive bytes. *)
Inductive ByteOrder : Type := LittleEndian | BigEndian.

Definition load_uint32 (order : ByteOrder) (bytes : list Z) : Z :=
  match order with
  | LittleEndian => foldr (fun b acc => Z.lor b (Z.shiftl acc 8)) 0 bytes
  | BigEndian => foldl (fun acc b => Z.lor (Z.shiftl acc 8) b) 0 bytes
  end.

(** [hostOrder.value], for [hostOrder = { { 0, 1, 2, 3 } }]. *)
Definition hostOrder_value (order : ByteOrder) : Z :=
  load_uint32 order [0; 1; 2; 3].

(** [cxoUtils_getAdjustedEncoding] (lines 52-62). *)
Definition cxoUtils_getAdjustedEncoding (order : ByteOrder)
    (encoding : option string) : option string :=
  match encoding with
  | None => encoding
  | Some e =>
      if negb (strcmp e "UTF-16" =? 0) then encoding
      else if hostOrder_value order =? 0x03020100
           then Some "UTF-16LE"%string
           else Some "UTF-16BE"%string
  end.

(** [cxoUtils_getBooleanValue] (lines 69-79): the status and what [*value]
    holds on return. *)
Definition cxoUtils_getBooleanValue (obj : option PyObject) (defaultValue : Z)
  : HostProg (Z * Z) :=
  match obj with
  | None => mret (0, defaultValue)
  | Some o =>
      value ← hostCall (PyObject_IsTrue o);
      if value <? 0 then mret (-1, value)
      else mret (0, value)
  end.

(** [cxoUtils_getModuleAndName] (lines 86-98): the status and what
    [*module] and [*name] hold on return; [name] is what [*name] held on
    entry. *)
Definition cxoUtils_getModuleAndName (type : PyObject)
    (name : option PyObject)
  : HostProg (Z * option PyObject * option PyObject) :=
  module ← hostCall (PyObject_GetAttrString type "__module__");
  match module with
  | None => mret (-1, None, name)
  | Some m =>
      name ← hostCall (PyObject_GetAttrString type "__name__");
      match name with
      | None =>
          hostCall (OfCall (Py_DECREF m));;
          mret (-1, Some m, None)
      | Some _ => mret (0, Some m, name)
      end
  end.

(** ** More observations on traces *)

Definition is_dpi_call (c : Call) : bool :=
  match c with
  | dpiContext_createWithParams _ _ _ | dpiContext_getClientVersion _ _
  | dpiContext_destroy _ | dpiSodaDoc_addRef _
  | dpiSodaDb_createDocument _ _ _ _ _ _ _ _ _ => true
  | _ => false
  end.
Definition is_dumps (c : Call) : bool :=
  match c with
  | PyObject_CallFunctionObjArgs_cxoJsonDumpFunction _ => true
  | _ => false
  end.
Definition is_create_document (c : Call) : bool :=
  match c with
  | dpiSodaDb_createDocument _ _ _ _ _ _ _ _ _ => true
  | _ => false
  end.
Definition is_create_context (c : Call) : bool :=
  match c with dpiContext_createWithParams _ _ _ => true | _ => false end.
(** How many calls of a trace pass a test. *)
Definition count (f : Call -> bool) (tr : list Call) : nat :=
  length (filter (fun c => f c = true) tr).

(** The test of line 165 on a possibly-NULL argument. *)
Definition is_structured_arg (arg : option PyObject) : bool :=
  match arg with
  | Some a => PyDict_Check a || PyList_Check a
  | None => false
  end.

(** A test double for the four additional functions, over the same runtime:
    each answers as scripted, and every object it returns is a new entry
    of the heap with one reference. *)
Record HostScript : Type :=
  { isTrue_answer : Z;
    module_fails : bool;
    name_fails : bool;
    decode_fails : bool;
    format_fails : bool }.

Definition newString (text : string) (rt : Runtime)
  : option PyObject * Runtime :=
  (Some {| ob_addr := fresh_addr (objects rt); ob_kind := KUnicode text |},
   with_objects alloc rt).

Definition hostHarness (sc : HostScript) : HostHandler Runtime :=
  fun c rt =>
    match c as c0 return HostResp c0 * Runtime with
    | OfCall c => harness c rt
    | PyUnicode_DecodeASCII s _ _ =>
        if decode_fails sc then (None, raise rt) else newString s rt
    | PyUnicode_Format f _ =>
        if format_fails sc then (None, raise rt)
        else newString (match ob_kind f with KUnicode t => t | _ => EmptyString end) rt
    | PyObject_IsTrue _ =>
        (isTrue_answer sc, if isTrue_answer sc <? 0 then raise rt else rt)
    | PyObject_GetAttrString _ attr_name =>
        if (String.eqb attr_name "__module__" && module_fails sc)
           || (String.eqb attr_name "__name__" && name_fails sc)
        then (None, raise rt)
        else newString attr_name rt
    end.

Definition plainScript : HostScript :=
  {| isTrue_answer := 1; module_fails := false; name_fails := false;
     decode_fails := false; format_fails := false |}.
Definition nameFails : HostScript :=
  {| isTrue_answer := 1; module_fails := false; name_fails := true;
     decode_fails := false; format_fails := false |}.
Definition moduleFails : HostScript :=
  {| isTrue_answer := 1; module_fails := true; name_fails := false;
     decode_fails := false; format_fails := false |}.
Definition decodeFails : HostScript :=
  {| isTrue_answer := 1; module_fails := false; name_fails := false;
     decode_fails := true; format_fails := false |}.
Definition isTrueFails : HostScript :=
  {| isTrue_answer := -1; module_fails := false; name_fails := false;
     decode_fails := false; format_fails := false |}.

(** More concrete inputs. *)
Definition theString : PyObject :=
  {| ob_addr := 1; ob_kind := KUnicode "already text" |}.
Definition theInt : PyObject := {| ob_addr := 1; ob_kind := KOther |}.
Definition theDoc : PyObject :=
  {| ob_addr := 1; ob_kind := KSodaDoc (Some 9%positive) |}.
Definition initialized : Globals :=
  {| cxoDpiContext := Some 5%positive;
     cxoClientVersionInfo := {| fullVersionNum := 1900000000 |} |}.
Definition someParams : dpiContextCreateParams :=
  {| defaultDriverName := Some "app"%string;
     defaultEncoding := Some "ISO-8859-1"%string;
     loadErrorUrl := None;
     oracleClientLibDir := Some "/opt/oracle"%string;
     oracleClientConfigDir := None |}.
Definition addRefFails : Faults :=
  {| dumps_text := Some "{}"%string; encode_fails := false;
     addRef_fails := true; createDocument_fails := false;
     createContext_fails := false; getClientVersion_fails := false |}.
Definition dumpsFails : Faults :=
  {| dumps_text := None; encode_fails := false;
     addRef_fails := false; createDocument_fails := false;
     createContext_fails := false; getClientVersion_fails := false |}.

(** * Properties *)

(** ** Running programs *)

Lemma run_vis {S A : Type} (h : Handler S) (c : Call) (k : Resp c -> Prog A)
    (s : S) :
  run h (Vis c k) s =
  (let '(a, s2, tr) := run h (k (h c s).1) (h c s).2 in (a, s2, c :: tr)).
Proof. simpl. destruct (h c s) as [r s1]. reflexivity. Qed.

Lemma run_call {S : Type} (h : Handler S) (c : Call) (s : S) :
  run h (call c) s = ((h c s).1, (h c s).2, [c]).
Proof. unfold call. rewrite run_vis. reflexivity. Qed.

(** The trace of a sequence is the trace of its first part followed by the
    trace of what comes after. *)
Lemma run_bind {S A B : Type} (h : Handler S) (p : Prog A) (f : A -> Prog B)
    (s : S) :
  run h (p ≫= f) s =
  (let '(a, s1, tr1) := run h p s in
   let '(b, s2, tr2) := run h (f a) s1 in
   (b, s2, tr1 ++ tr2)).
Proof.
  revert s. induction p as [a | c k IH]; intros s.
  - simpl. change (Ret a ≫= f) with (f a).
    destruct (run h (f a) s) as [[b s2] tr2]. reflexivity.
  - change (Vis c k ≫= f) with (Vis c (fun r => k r ≫= f)).
    rewrite !run_vis, IH.
    destruct (run h (k (h c s).1) (h c s).2) as [[a s1] tr1].
    destruct (run h (f a) s1) as [[b s2] tr2]. reflexivity.
Qed.

(** ** Counting calls *)

Lemma occurrences_cons (c c' : Call) (tr : list Call) :
  occurrences c (c' :: tr) =
  ((if decide (c' = c) then 1 else 0) + occurrences c tr)%nat.
Proof.
  unfold occurrences. rewrite filter_cons.
  destruct (decide (c' = c)); reflexivity.
Qed.

Lemma occurrences_nil (c : Call) : occurrences c [] = 0%nat.
Proof. reflexivity. Qed.

Lemma buffer_clears_cons (c : Call) (tr : list Call) :
  buffer_clears (c :: tr) =
  ((if is_buffer_clear c then 1 else 0) + buffer_clears tr)%nat.
Proof.
  unfold buffer_clears. rewrite filter_cons.
  destruct (is_buffer_clear c); simpl; reflexivity.
Qed.

Lemma decrefs_cons (c : Call) (tr : list Call) :
  decrefs (c :: tr) = ((if is_decref c then 1 else 0) + decrefs tr)%nat.
Proof.
  unfold decrefs. rewrite filter_cons.
  destruct (is_decref c); simpl; reflexivity.
Qed.

Ltac count_calls :=
  rewrite ?occurrences_cons, ?buffer_clears_cons, ?decrefs_cons,
    ?occurrences_nil;
  repeat case_decide; try discriminate; try congruence; simpl;
  try reflexivity.

(** A dictionary or a list is not a SODA document. *)
Lemma structured_not_doc (o : PyObject) :
  is_structured o = true -> PyObject_TypeCheck_SodaDoc o = false.
Proof.
  unfold is_structured, PyDict_Check, PyList_Check, PyObject_TypeCheck_SodaDoc.
  destruct (ob_kind o); simpl; congruence.
Qed.

(** ** The exit paths of [cxoUtils_processJsonArg] on a dictionary or list *)

Section JsonArgPaths.
Context {S : Type} (h : Handler S).
Variables (arg : PyObject) (buffer0 : cxoBuffer).
Hypothesis Harg : is_structured arg = true.

Let dumps := PyObject_CallFunctionObjArgs_cxoJsonDumpFunction arg.

Lemma jsonArg_dumps_fails (s s1 : S) :
  h dumps s = (None, s1) ->
  run h (cxoUtils_processJsonArg (Some arg) buffer0) s =
  ((-1, buffer0), s1, [dumps]).
Proof.
  intros Hd. unfold cxoUtils_processJsonArg.
  unfold is_structured in Harg. rewrite Harg. simpl. fold dumps.
  rewrite Hd. reflexivity.
Qed.

Lemma jsonArg_encode_fails (s s1 s2 : S) v status buffer :
  h dumps s = (Some v, s1) ->
  h (cxoBuffer_fromObject (Some v) "UTF-8") s1 = ((status, buffer), s2) ->
  status < 0 ->
  run h (cxoUtils_processJsonArg (Some arg) buffer0) s =
  ((-1, buffer), s2, [dumps; cxoBuffer_fromObject (Some v) "UTF-8"]).
Proof.
  intros Hd He Hst. unfold cxoUtils_processJsonArg.
  unfold is_structured in Harg. rewrite Harg. simpl. fold dumps.
  rewrite Hd. simpl. rewrite He. simpl.
  apply Z.ltb_lt in Hst. rewrite Hst. reflexivity.
Qed.

Lemma jsonArg_encoded (s s1 s2 : S) v status buffer :
  h dumps s = (Some v, s1) ->
  h (cxoBuffer_fromObject (Some v) "UTF-8") s1 = ((status, buffer), s2) ->
  0 <= status ->
  run h (cxoUtils_processJsonArg (Some arg) buffer0) s =
  ((0, buffer), (h (Py_DECREF v) s2).2,
   [dumps; cxoBuffer_fromObject (Some v) "UTF-8"; Py_DECREF v]).
Proof.
  intros Hd He Hst. unfold cxoUtils_processJsonArg.
  unfold is_structured in Harg. rewrite Harg. simpl. fold dumps.
  rewrite Hd. simpl. rewrite He. simpl.
  apply Z.ltb_ge in Hst. rewrite Hst. simpl.
  destruct (h (Py_DECREF v) s2) as [[] s3]. reflexivity.
Qed.
End JsonArgPaths.

(** An argument that is neither a dictionary nor a list is encoded as it is
    and no reference is dropped. *)
Lemma jsonArg_plain_drops_nothing {S : Type} (h : Handler S) (s : S)
    (arg : PyObject) (buffer0 : cxoBuffer) :
  is_structured arg = false ->
  trace h (cxoUtils_processJsonArg (Some arg) buffer0) s =
  [cxoBuffer_fromObject (Some arg) "UTF-8"].
Proof.
  intros Harg. unfold trace, cxoUtils_processJsonArg.
  unfold is_structured in Harg. rewrite Harg. simpl.
  destruct (h (cxoBuffer_fromObject (Some arg) "UTF-8") s) as [[st b] s1].
  simpl. destruct (st <? 0); reflexivity.
Qed.

(** C1: in [cxoUtils_processJsonArg], when the argument is a dictionary or a
    list, the serializer answers with a new object [v] and the encoding of
    [v] to UTF-8 then fails, the function returns -1 having made no call to
    [Py_DECREF] at all: the reference to [v] is not released, where the
    claim asks for exactly one release. *)
Theorem processJsonArg_encode_failure_keeps_reference
    (S : Type) (h : Handler S) (s s1 s2 : S) (arg : PyObject)
    (buffer0 : cxoBuffer) (v : PyObject) (status : Z) (buffer : cxoBuffer) :
  is_structured arg = true ->
  h (PyObject_CallFunctionObjArgs_cxoJsonDumpFunction arg) s = (Some v, s1) ->
  h (cxoBuffer_fromObject (Some v) "UTF-8") s1 = ((status, buffer), s2) ->
  status < 0 ->
  let p := cxoUtils_processJsonArg (Some arg) buffer0 in
  (result h p s).1 = -1 /\
  occurrences (Py_DECREF v) (trace h p s) = 0%nat /\
  decrefs (trace h p s) = 0%nat.
Proof.
  intros Harg Hd He Hst p. subst p. unfold result, trace.
  rewrite (jsonArg_encode_fails h arg buffer0 Harg s s1 s2 v status buffer
             Hd He Hst).
  simpl. repeat split; count_calls.
Qed.

(** ** The exit paths of [cxoUtils_initializeDPI] on an uninitialized module *)

Section InitializePaths.
Context {S : Type} (h : Handler S).
Variables (drv : string) (major minor : Z)
          (params : option dpiContextCreateParams) (g : Globals).
Hypothesis Hnull : cxoDpiContext g = None.

Let create :=
  dpiContext_createWithParams major minor (effectiveParams drv params).

Lemma initializeDPI_create_fails (s s1 : S) status context errorInfo :
  h create s = ((status, context, errorInfo), s1) ->
  status < 0 ->
  run h (cxoUtils_initializeDPI drv major minor params g) s =
  (((h (cxoError_raiseFromInfo errorInfo) s1).1, g),
   (h (cxoError_raiseFromInfo errorInfo) s1).2,
   [create; cxoError_raiseFromInfo errorInfo]).
Proof.
  intros Hc Hst. unfold cxoUtils_initializeDPI. rewrite Hnull.
  simpl. fold create. rewrite Hc. simpl.
  apply Z.ltb_lt in Hst. rewrite Hst. simpl.
  destruct (h (cxoError_raiseFromInfo errorInfo) s1) as [r s2].
  reflexivity.
Qed.

Lemma initializeDPI_version_fails (s s1 s2 : S) status context errorInfo
    status2 versionInfo :
  h create s = ((status, context, errorInfo), s1) ->
  0 <= status ->
  h (dpiContext_getClientVersion context (cxoClientVersionInfo g)) s1 =
    ((status2, versionInfo), s2) ->
  status2 < 0 ->
  let p := cxoUtils_initializeDPI drv major minor params g in
  result h p s =
    (-1, {| cxoDpiContext := None; cxoClientVersionInfo := versionInfo |}) /\
  trace h p s =
    [create;
     dpiContext_getClientVersion context (cxoClientVersionInfo g);
     cxoError_raiseAndReturnInt; dpiContext_destroy context].
Proof.
  intros Hc Hst Hv Hst2 p. subst p.
  unfold result, trace, cxoUtils_initializeDPI. rewrite Hnull.
  simpl. fold create. rewrite Hc. simpl.
  apply Z.ltb_ge in Hst. rewrite Hst. simpl. rewrite Hv. simpl.
  apply Z.ltb_lt in Hst2. rewrite Hst2. simpl.
  destruct (h cxoError_raiseAndReturnInt s2) as [r s3]. simpl.
  destruct (h (dpiContext_destroy context) s3) as [r' s4]. simpl.
  rewrite ?Hnull. split; reflexivity.
Qed.

Lemma initializeDPI_succeeds (s s1 s2 : S) status context errorInfo
    status2 versionInfo :
  h create s = ((status, context, errorInfo), s1) ->
  0 <= status ->
  h (dpiContext_getClientVersion context (cxoClientVersionInfo g)) s1 =
    ((status2, versionInfo), s2) ->
  0 <= status2 ->
  run h (cxoUtils_initializeDPI drv major minor params g) s =
  ((0, {| cxoDpiContext := context; cxoClientVersionInfo := versionInfo |}),
   s2,
   [create; dpiContext_getClientVersion context (cxoClientVersionInfo g)]).
Proof.
  intros Hc Hst Hv Hst2.
  unfold cxoUtils_initializeDPI. rewrite Hnull.
  simpl. fold create. rewrite Hc. simpl.
  apply Z.ltb_ge in Hst. rewrite Hst. simpl. rewrite Hv. simpl.
  apply Z.ltb_ge in Hst2. rewrite Hst2. reflexivity.
Qed.

(** An uninitialized module always starts by asking for a context. *)
Lemma initializeDPI_uninitialized_asks (s : S) :
  head (trace h (cxoUtils_initializeDPI drv major minor params g) s) =
  Some create.
Proof.
  unfold trace, cxoUtils_initializeDPI. rewrite Hnull. simpl. fold create.
  destruct (h create s) as [[[st c] e] s1]. simpl.
  destruct (st <? 0); simpl.
  - destruct (h (cxoError_raiseFromInfo e) s1) as [r s2]. reflexivity.
  - destruct (h (dpiContext_getClientVersion c (cxoClientVersionInfo g)) s1)
      as [[st2 vi] s2]. simpl.
    destruct (st2 <? 0); simpl; [| reflexivity].
    destruct (h cxoError_raiseAndReturnInt s2) as [r s3]. simpl.
    destruct (h (dpiContext_destroy c) s3) as [r' s4]. reflexivity.
Qed.
End InitializePaths.

(** C2: [cxoUtils_initializeDPI] on an uninitialized module.  When the
    creation of the native context fails, the globals come back as they went
    in, the handle is still NULL, and a later call asks for a context again.
    When the creation succeeds and the fetch of the client version fails,
    the function returns -1, the handle is still NULL, and the last thing
    done before returning is to destroy the context just created, once.
    The handle is set only if both steps succeeded; when they did, it is the
    context created, which is not destroyed. *)
Theorem initializeDPI_atomic_on_failure
    (S : Type) (h : Handler S) (s s1 s2 : S) (drv : string) (major minor : Z)
    (params : option dpiContextCreateParams) (g : Globals)
    (status : Z) (context : option dpiContext) (errorInfo : dpiErrorInfo)
    (status2 : Z) (versionInfo : dpiVersionInfo) :
  cxoDpiContext g = None ->
  h (dpiContext_createWithParams major minor (effectiveParams drv params)) s =
    ((status, context, errorInfo), s1) ->
  h (dpiContext_getClientVersion context (cxoClientVersionInfo g)) s1 =
    ((status2, versionInfo), s2) ->
  let p := cxoUtils_initializeDPI drv major minor params g in
  let g' := (result h p s).2 in
  (status < 0 ->
     g' = g /\ cxoDpiContext g' = None /\
     (forall params' (s' : S),
        head (trace h (cxoUtils_initializeDPI drv major minor params' g') s') =
        Some (dpiContext_createWithParams major minor
                (effectiveParams drv params')))) /\
  (0 <= status -> status2 < 0 ->
     (result h p s).1 = -1 /\ cxoDpiContext g' = None /\
     last (trace h p s) = Some (dpiContext_destroy context) /\
     occurrences (dpiContext_destroy context) (trace h p s) = 1%nat) /\
  (cxoDpiContext g' <> None -> 0 <= status /\ 0 <= status2) /\
  (0 <= status -> 0 <= status2 ->
     (result h p s).1 = 0 /\ cxoDpiContext g' = context /\
     occurrences (dpiContext_destroy context) (trace h p s) = 0%nat).
Proof.
  intros Hnull Hc Hv p g'. subst p g'.
  destruct (Z.lt_ge_cases status 0) as [Hst | Hst].
  - unfold result.
    rewrite (initializeDPI_create_fails h drv major minor params g Hnull
               s s1 status context errorInfo Hc Hst). simpl.
    repeat split; try lia; try congruence.
    intros params' s'. apply initializeDPI_uninitialized_asks. exact Hnull.
  - destruct (Z.lt_ge_cases status2 0) as [Hst2 | Hst2].
    + destruct (initializeDPI_version_fails h drv major minor params g Hnull
                  s s1 s2 status context errorInfo status2 versionInfo
                  Hc Hst Hv Hst2) as [Hr Ht].
      rewrite Hr, Ht. simpl.
      repeat split; try lia; try congruence; count_calls.
    + unfold result, trace.
      rewrite (initializeDPI_succeeds h drv major minor params g Hnull
                 s s1 s2 status context errorInfo status2 versionInfo
                 Hc Hst Hv Hst2). simpl.
      repeat split; try lia; try congruence; count_calls.
Qed.


(** ** The exit paths of [cxoUtils_processSodaDocArg] on a dictionary or list *)

Section SodaDocPaths.
Context {S : Type} (h : Handler S).
Variables (flags : Z) (db : cxoSodaDatabase) (arg : PyObject)
          (handle : option dpiSodaDoc).
Hypothesis Harg : is_structured arg = true.

Let dumps := PyObject_CallFunctionObjArgs_cxoJsonDumpFunction arg.

Lemma sodaDoc_dumps_fails (s s1 : S) :
  h dumps s = (None, s1) ->
  run h (cxoUtils_processSodaDocArg flags db arg handle) s =
  ((-1, handle), s1, [dumps]).
Proof.
  intros Hd. unfold cxoUtils_processSodaDocArg.
  rewrite (structured_not_doc _ Harg). unfold is_structured in Harg.
  rewrite Harg. simpl. fold dumps. rewrite Hd. reflexivity.
Qed.

Lemma sodaDoc_encode_fails (s s1 s2 : S) v status buffer :
  h dumps s = (Some v, s1) ->
  h (cxoBuffer_fromObject (Some v) "UTF-8") s1 = ((status, buffer), s2) ->
  status < 0 ->
  run h (cxoUtils_processSodaDocArg flags db arg handle) s =
  ((-1, handle), (h (Py_DECREF v) s2).2,
   [dumps; cxoBuffer_fromObject (Some v) "UTF-8"; Py_DECREF v]).
Proof.
  intros Hd He Hst. unfold cxoUtils_processSodaDocArg.
  rewrite (structured_not_doc _ Harg). unfold is_structured in Harg.
  rewrite Harg. simpl. fold dumps. rewrite Hd. simpl. rewrite He. simpl.
  apply Z.ltb_lt in Hst. rewrite Hst. simpl.
  destruct (h (Py_DECREF v) s2) as [[] s3]. reflexivity.
Qed.

Lemma sodaDoc_encoded (s s1 s2 s4 : S) v status buffer status' handle' :
  h dumps s = (Some v, s1) ->
  h (cxoBuffer_fromObject (Some v) "UTF-8") s1 = ((status, buffer), s2) ->
  0 <= status ->
  let create :=
    dpiSodaDb_createDocument (db_handle db) None 0 (ptr buffer)
      (size buffer) None 0 flags handle in
  h create (h (Py_DECREF v) s2).2 = ((status', handle'), s4) ->
  let s5 := (h (cxoBuffer_clear buffer) s4).2 in
  let calls :=
    [dumps; cxoBuffer_fromObject (Some v) "UTF-8"; Py_DECREF v; create;
     cxoBuffer_clear buffer] in
  run h (cxoUtils_processSodaDocArg flags db arg handle) s =
  if status' <? 0 then
    (((h cxoError_raiseAndReturnInt s5).1, handle'),
     (h cxoError_raiseAndReturnInt s5).2,
     calls ++ [cxoError_raiseAndReturnInt])
  else ((0, handle'), s5, calls).
Proof.
  intros Hd He Hst create Hc s5 calls. subst s5 calls.
  unfold cxoUtils_processSodaDocArg.
  rewrite (structured_not_doc _ Harg). unfold is_structured in Harg.
  rewrite Harg. simpl. fold dumps. rewrite Hd. simpl. rewrite He. simpl.
  apply Z.ltb_ge in Hst. rewrite Hst. simpl.
  destruct (h (Py_DECREF v) s2) as [[] s3]. simpl in *.
  fold create. rewrite Hc. simpl.
  destruct (status' <? 0); simpl.
  - destruct (h (cxoBuffer_clear buffer) s4) as [[] s5]. simpl.
    destruct (h cxoError_raiseAndReturnInt s5) as [r s6]. reflexivity.
  - destruct (h (cxoBuffer_clear buffer) s4) as [[] s5]. reflexivity.
Qed.
End SodaDocPaths.

(** C3: in [cxoUtils_processSodaDocArg], when the argument is a dictionary
    or a list and the serializer answers with a new object [v], every exit
    path drops the reference to [v] exactly once and drops no other
    reference.  When the encoding of [v] produced a buffer, that buffer is
    cleared exactly once and no other buffer is, both when the creation of
    the document succeeds and when it fails; when the encoding itself fails
    there is no buffer and none is cleared.  The handler is arbitrary, so
    the statement covers every answer the collaborators can give. *)
Theorem processSodaDocArg_releases_exactly_once
    (S : Type) (h : Handler S) (s s1 s2 s4 : S) (flags : Z)
    (db : cxoSodaDatabase) (arg : PyObject) (handle : option dpiSodaDoc)
    (v : PyObject) (status : Z) (buffer : cxoBuffer)
    (status' : Z) (handle' : option dpiSodaDoc) :
  is_structured arg = true ->
  h (PyObject_CallFunctionObjArgs_cxoJsonDumpFunction arg) s = (Some v, s1) ->
  h (cxoBuffer_fromObject (Some v) "UTF-8") s1 = ((status, buffer), s2) ->
  h (dpiSodaDb_createDocument (db_handle db) None 0 (ptr buffer)
       (size buffer) None 0 flags handle) (h (Py_DECREF v) s2).2 =
    ((status', handle'), s4) ->
  let p := cxoUtils_processSodaDocArg flags db arg handle in
  let tr := trace h p s in
  occurrences (Py_DECREF v) tr = 1%nat /\ decrefs tr = 1%nat /\
  (0 <= status ->
     occurrences (cxoBuffer_clear buffer) tr = 1%nat /\
     buffer_clears tr = 1%nat /\
     (0 <= status' ->
        result h p s = (0, handle') /\
        last tr = Some (cxoBuffer_clear buffer)) /\
     (status' < 0 ->
        (result h p s).2 = handle' /\
        last tr = Some cxoError_raiseAndReturnInt)) /\
  (status < 0 -> buffer_clears tr = 0%nat /\ result h p s = (-1, handle)).
Proof.
  intros Harg Hd He Hc p tr. subst p tr.
  destruct (Z.lt_ge_cases status 0) as [Hst | Hst].
  - unfold trace, result.
    rewrite (sodaDoc_encode_fails h flags db arg handle Harg s s1 s2 v status
               buffer Hd He Hst).
    simpl. repeat split; try lia; count_calls.
  - unfold trace, result.
    rewrite (sodaDoc_encoded h flags db arg handle Harg s s1 s2 s4 v status
               buffer status' handle' Hd He Hst Hc).
    destruct (status' <? 0) eqn:Hst'.
    + apply Z.ltb_lt in Hst'. simpl.
      repeat split; try lia; count_calls.
    + apply Z.ltb_ge in Hst'. simpl.
      repeat split; try lia; count_calls.
Qed.

(** ** The same paths on the allocation-tracking runtime *)

Lemma fresh_addr_unused (m : gmap positive nat) : m !! fresh_addr m = None.
Proof. unfold fresh_addr. apply not_elem_of_dom. apply is_fresh. Qed.

Lemma decref_alloc (m : gmap positive nat) :
  decref (fresh_addr m) (alloc m) = m.
Proof.
  unfold decref, alloc. rewrite lookup_insert_eq.
  apply delete_insert_id, fresh_addr_unused.
Qed.

Lemma alloc_grows (m : gmap positive nat) :
  base.size (alloc m) = S (base.size m).
Proof. apply map_size_insert_None, fresh_addr_unused. Qed.

Lemma alloc_alloc_decref (m : gmap positive nat) :
  decref (fresh_addr m) (alloc (alloc m)) = <[fresh_addr (alloc m) := 1%nat]> m.
Proof.
  pose proof (fresh_addr_unused m) as Ha.
  pose proof (fresh_addr_unused (alloc m)) as Hb.
  change (alloc (alloc m)) with (<[fresh_addr (alloc m) := 1%nat]> (alloc m)).
  remember (fresh_addr (alloc m)) as b eqn:Eb. clear Eb.
  change (alloc m) with (<[fresh_addr m := 1%nat]> m) in *.
  remember (fresh_addr m) as a eqn:Ea. clear Ea.
  assert (Hne : b <> a).
  { intros ->. rewrite lookup_insert_eq in Hb. discriminate. }
  unfold decref. rewrite lookup_insert_ne by exact Hne.
  rewrite lookup_insert_eq.
  rewrite delete_insert_ne by congruence.
  rewrite delete_insert_id by exact Ha. reflexivity.
Qed.

Lemma alloc_alloc_decref_decref (m : gmap positive nat) :
  decref (fresh_addr (alloc m)) (decref (fresh_addr m) (alloc (alloc m))) = m.
Proof.
  rewrite alloc_alloc_decref.
  pose proof (fresh_addr_unused (alloc m)) as Hb.
  remember (fresh_addr (alloc m)) as b eqn:Eb. clear Eb.
  unfold decref. rewrite lookup_insert_eq.
  apply delete_insert_id.
  unfold alloc in Hb.
  destruct (decide (fresh_addr m = b)) as [<- | Hne].
  - apply fresh_addr_unused.
  - rewrite lookup_insert_ne in Hb by exact Hne. exact Hb.
Qed.

(** On the runtime, [cxoUtils_processSodaDocArg] on a dictionary or a list
    that serializes leaves the Python heap as it found it, whichever of the
    later steps fails. *)
Lemma sodaDoc_harness_balanced (rt : Runtime) (flags : Z)
    (db : cxoSodaDatabase) (arg : PyObject) (handle : option dpiSodaDoc)
    (text : string) :
  is_structured arg = true ->
  dumps_text (faults rt) = Some text ->
  objects (final harness (cxoUtils_processSodaDocArg flags db arg handle) rt)
  = objects rt.
Proof.
  intros Harg Hd. unfold final.
  set (v := {| ob_addr := fresh_addr (objects rt); ob_kind := KUnicode text |}).
  assert (Hdumps :
    harness (PyObject_CallFunctionObjArgs_cxoJsonDumpFunction arg) rt =
    (Some v, with_objects alloc rt)).
  { simpl. rewrite Hd. reflexivity. }
  destruct (encode_fails (faults rt)) eqn:Hf.
  - rewrite (sodaDoc_encode_fails harness flags db arg handle Harg
               rt _ (raise (with_objects alloc rt)) v (-1) emptyBuffer Hdumps);
      [| simpl; rewrite Hf; reflexivity | lia].
    simpl. apply decref_alloc.
  - set (b := {| ptr := Some text; size := Z.of_nat (String.length text);
                 obj := Some {| ob_addr := fresh_addr (alloc (objects rt));
                                ob_kind := KBytes text |} |}).
    assert (He : harness (cxoBuffer_fromObject (Some v) "UTF-8")
                   (with_objects alloc rt) =
                 ((0, b), with_objects alloc (with_objects alloc rt))).
    { simpl. rewrite Hf. reflexivity. }
    destruct (harness (dpiSodaDb_createDocument (db_handle db) None 0 (ptr b)
                (size b) None 0 flags handle)
                (harness (Py_DECREF v)
                   (with_objects alloc (with_objects alloc rt))).2)
      as [[st' h'] s4] eqn:Hc.
    rewrite (sodaDoc_encoded harness flags db arg handle Harg rt _ _ s4 v 0 b
               st' h' Hdumps He ltac:(lia) Hc).
    simpl in Hc. destruct (createDocument_fails (faults rt));
      injection Hc as <- <- <-; simpl; apply alloc_alloc_decref_decref.
Qed.

(** On the runtime, [cxoUtils_processJsonArg] on a dictionary or a list whose
    serialization succeeds and whose encoding fails returns with the
    serialized string still allocated. *)
Lemma jsonArg_harness_leaks (rt : Runtime) (arg : PyObject)
    (buffer0 : cxoBuffer) (text : string) :
  is_structured arg = true ->
  dumps_text (faults rt) = Some text ->
  encode_fails (faults rt) = true ->
  let rt' := final harness (cxoUtils_processJsonArg (Some arg) buffer0) rt in
  objects rt' = <[fresh_addr (objects rt) := 1%nat]> (objects rt) /\
  base.size (objects rt') = S (base.size (objects rt)).
Proof.
  intros Harg Hd Hf rt'. subst rt'. unfold final.
  rewrite (jsonArg_encode_fails harness arg buffer0 Harg rt
             (with_objects alloc rt) (raise (with_objects alloc rt))
             {| ob_addr := fresh_addr (objects rt); ob_kind := KUnicode text |}
             (-1) emptyBuffer);
    [| simpl; rewrite Hd; reflexivity | simpl; rewrite Hf; reflexivity | lia].
  simpl. split; [reflexivity | apply alloc_grows].
Qed.

(** On the runtime, a failed version fetch leaves no native context alive. *)
Lemma initializeDPI_harness_no_context_left (rt : Runtime) (drv : string)
    (major minor : Z) (params : option dpiContextCreateParams) (g : Globals) :
  cxoDpiContext g = None ->
  createContext_fails (faults rt) = false ->
  getClientVersion_fails (faults rt) = true ->
  contexts (final harness (cxoUtils_initializeDPI drv major minor params g) rt)
  = contexts rt.
Proof.
  intros Hnull Hc Hv. unfold final, cxoUtils_initializeDPI.
  rewrite Hnull. simpl. rewrite Hc. simpl. rewrite Hv. simpl.
  pose proof (is_fresh (contexts rt)) as Hfresh.
  apply set_eq. intros x.
  rewrite elem_of_difference, elem_of_union, !elem_of_singleton.
  split.
  - intros [[Hx | Hx] Hne]; [contradiction | exact Hx].
  - intros Hx. split; [right; exact Hx |].
    intros ->. contradiction.
Qed.

(** ** The theorems at concrete inputs *)

Lemma processJsonArg_encode_failure_keeps_reference_witness :
  let p := cxoUtils_processJsonArg (Some theDict) emptyBuffer in
  (result harness p (startRuntime encodeFails)).1 = -1 /\
  occurrences (Py_DECREF theJson) (trace harness p (startRuntime encodeFails))
    = 0%nat /\
  decrefs (trace harness p (startRuntime encodeFails)) = 0%nat.
Proof.
  apply (processJsonArg_encode_failure_keeps_reference Runtime harness
           (startRuntime encodeFails)
           (with_objects alloc (startRuntime encodeFails))
           (raise (with_objects alloc (startRuntime encodeFails)))
           theDict emptyBuffer theJson (-1) emptyBuffer);
    [reflexivity | reflexivity | reflexivity | lia].
Defined.

(** The same run, seen on the heap: the call fails, and the string the
    serializer allocated at address 2 is still there with its one
    reference, which nobody holds any more. *)
Example jsonArg_leak_on_the_heap :
  let p := cxoUtils_processJsonArg (Some theDict) emptyBuffer in
  result harness p (startRuntime encodeFails) = (-1, emptyBuffer) /\
  objects (final harness p (startRuntime encodeFails)) !! ob_addr theJson
    = Some 1%nat /\
  raised (final harness p (startRuntime encodeFails)) = true.
Proof. vm_compute. repeat split. Qed.

(** The sibling function on the same input and the same failure gives the
    reference back. *)
Example sodaDoc_no_leak_on_the_heap :
  let p := cxoUtils_processSodaDocArg 0 theDb theDict None in
  result harness p (startRuntime encodeFails) = (-1, None) /\
  objects (final harness p (startRuntime encodeFails)) !! ob_addr theJson
    = None.
Proof. vm_compute. repeat split. Qed.

Lemma initializeDPI_atomic_on_failure_witness :
  let p := cxoUtils_initializeDPI "cx_Oracle" 4 1 None uninitialized in
  let rt := startRuntime getClientVersionFails in
  (result harness p rt).1 = -1 /\
  cxoDpiContext (result harness p rt).2 = None /\
  last (trace harness p rt) = Some (dpiContext_destroy (Some 1%positive)) /\
  occurrences (dpiContext_destroy (Some 1%positive)) (trace harness p rt)
    = 1%nat.
Proof.
  intros p rt.
  destruct (initializeDPI_atomic_on_failure Runtime harness rt
              (with_contexts (fun X => {[1%positive]} ∪ X) rt)
              (with_contexts (fun X => {[1%positive]} ∪ X) rt)
              "cx_Oracle" 4 1 None uninitialized
              0 (Some 1%positive) noError (-1) {| fullVersionNum := 0 |}
              eq_refl eq_refl eq_refl) as (_ & Hfetch & _).
  apply Hfetch; lia.
Defined.

Lemma processSodaDocArg_releases_exactly_once_witness :
  let p := cxoUtils_processSodaDocArg 0 theDb theDict None in
  let tr := trace harness p (startRuntime createDocumentFails) in
  occurrences (Py_DECREF theJson) tr = 1%nat /\ decrefs tr = 1%nat /\
  occurrences (cxoBuffer_clear theBuffer) tr = 1%nat /\
  buffer_clears tr = 1%nat /\
  last tr = Some cxoError_raiseAndReturnInt.
Proof.
  intros p tr.
  destruct (processSodaDocArg_releases_exactly_once Runtime harness
              (startRuntime createDocumentFails)
              (with_objects alloc (startRuntime createDocumentFails))
              (with_objects alloc
                 (with_objects alloc (startRuntime createDocumentFails)))
              (with_objects (decref 2)
                 (with_objects alloc
                    (with_objects alloc (startRuntime createDocumentFails))))
              0 theDb theDict None theJson 0 theBuffer (-1) None
              eq_refl eq_refl eq_refl eq_refl) as (Hv & Hd & Hb & _).
  destruct Hb as (Hb1 & Hb2 & _ & Hfail); [lia |].
  destruct Hfail as [_ Hlast]; [lia |].
  repeat split; assumption.
Defined.

(** * Further properties of cxoUtils.c *)

Lemma count_cons (f : Call -> bool) (c : Call) (tr : list Call) :
  count f (c :: tr) = ((if f c then 1 else 0) + count f tr)%nat.
Proof.
  unfold count. rewrite filter_cons. destruct (f c); simpl; reflexivity.
Qed.

Lemma count_nil (f : Call -> bool) : count f [] = 0%nat.
Proof. reflexivity. Qed.

Lemma decrefs_nil : decrefs [] = 0%nat.
Proof. reflexivity. Qed.

Lemma buffer_clears_nil : buffer_clears [] = 0%nat.
Proof. reflexivity. Qed.

Ltac tally :=
  simpl;
  repeat (first [ rewrite buffer_clears_cons | rewrite decrefs_cons
                | rewrite count_cons | rewrite count_nil
                | rewrite decrefs_nil | rewrite buffer_clears_nil ]);
  simpl.

(** Following a run through every answer the handler can give. *)
Ltac explore h :=
  repeat (simpl in *;
          match goal with
          | |- context [h ?c ?s] => destruct (h c s) as [? ?] eqn:?
          | |- context [match ?x with _ => _ end] => is_var x; destruct x
          | |- context [if ?a <? ?b then _ else _] => destruct (a <? b) eqn:?
          end).

(** ** [cxoUtils_initializeDPI] *)

(** X1: once the module holds a context, [cxoUtils_initializeDPI] leaves the
    globals alone and makes no call into ODPI-C.  Without parameters it
    returns 0 and calls nothing at all; with parameters it returns -1 and
    its only call raises the programming error. *)
Theorem initializeDPI_initialized_is_inert
    (S : Type) (h : Handler S) (s : S) (drv : string) (major minor : Z)
    (params : option dpiContextCreateParams) (g : Globals) (c : dpiContext) :
  cxoDpiContext g = Some c ->
  let p := cxoUtils_initializeDPI drv major minor params g in
  (result h p s).2 = g /\
  count is_dpi_call (trace h p s) = 0%nat /\
  (params = None -> (result h p s).1 = 0 /\ trace h p s = []) /\
  (params <> None ->
     (result h p s).1 = -1 /\
     trace h p s =
       [cxoError_raiseFromString cxoProgrammingErrorException
          "Oracle Client library has already been initialized"]).
Proof.
  intros Hc p. subst p. unfold result, trace, cxoUtils_initializeDPI.
  rewrite Hc. destruct params as [q |]; simpl.
  - destruct (h _ s) as [r s1]. simpl.
    repeat split; try congruence.
  - repeat split; congruence.
Qed.

(** X2: two calls in a row.  When the first call, on an uninitialized
    module, gets a context and the client version, the globals it leaves
    hold that context and that version; a second call then returns 0 if it
    passes no parameters and -1 if it passes any, and in both cases makes no
    call into ODPI-C and leaves the handle and the cached version as the
    first call set them. *)
Theorem initializeDPI_twice
    (S : Type) (h : Handler S) (s s1 s2 : S) (drv : string) (major minor : Z)
    (params params2 : option dpiContextCreateParams) (g : Globals)
    (status : Z) (c : dpiContext) (errorInfo : dpiErrorInfo)
    (status2 : Z) (versionInfo : dpiVersionInfo) :
  cxoDpiContext g = None ->
  h (dpiContext_createWithParams major minor (effectiveParams drv params)) s =
    ((status, Some c, errorInfo), s1) ->
  0 <= status ->
  h (dpiContext_getClientVersion (Some c) (cxoClientVersionInfo g)) s1 =
    ((status2, versionInfo), s2) ->
  0 <= status2 ->
  let first := cxoUtils_initializeDPI drv major minor params g in
  let g1 := (result h first s).2 in
  let second := cxoUtils_initializeDPI drv major minor params2 g1 in
  result h first s =
    (0, {| cxoDpiContext := Some c; cxoClientVersionInfo := versionInfo |}) /\
  final h first s = s2 /\
  (result h second s2).2 = g1 /\
  (result h second s2).1 = match params2 with Some _ => -1 | None => 0 end /\
  count is_dpi_call (trace h second s2) = 0%nat.
Proof.
  intros Hnull Hc Hst Hv Hst2 first g1 second. subst second g1 first.
  unfold result, final, trace.
  rewrite (initializeDPI_succeeds h drv major minor params g Hnull
             s s1 s2 status (Some c) errorInfo status2 versionInfo
             Hc Hst Hv Hst2).
  simpl. unfold cxoUtils_initializeDPI. simpl.
  destruct params2 as [q |]; simpl.
  - destruct (h _ s2) as [r s3]. simpl. repeat split.
  - repeat split.
Qed.

(** X3: on an uninitialized module the first call made is the creation of
    the context, and the parameters it carries have the encoding set to
    UTF-8 whatever the caller asked for, the caller's driver name and help
    URL when given and the built-in ones otherwise, and the caller's two
    directory fields untouched.  No second creation is attempted. *)
Theorem initializeDPI_effective_parameters
    (S : Type) (h : Handler S) (s : S) (drv : string) (major minor : Z)
    (params : option dpiContextCreateParams) (g : Globals) :
  cxoDpiContext g = None ->
  let tr := trace h (cxoUtils_initializeDPI drv major minor params g) s in
  exists lp,
    head tr = Some (dpiContext_createWithParams major minor lp) /\
    count is_create_context tr = 1%nat /\
    defaultEncoding lp = Some "UTF-8"%string /\
    defaultDriverName lp =
      Some (default drv (params ≫= defaultDriverName)) /\
    loadErrorUrl lp =
      Some (default
              "https://cx-oracle.readthedocs.io/en/latest/user_guide/installation.html"%string
              (params ≫= loadErrorUrl)) /\
    oracleClientLibDir lp = params ≫= oracleClientLibDir /\
    oracleClientConfigDir lp = params ≫= oracleClientConfigDir.
Proof.
  intros Hnull tr. subst tr. exists (effectiveParams drv params).
  split; [apply initializeDPI_uninitialized_asks; exact Hnull |].
  split.
  - unfold trace, cxoUtils_initializeDPI. rewrite Hnull.
    explore h; tally; reflexivity.
  - destruct params as [[d e u l c] |]; simpl.
    + destruct d, u; repeat split.
    + repeat split.
Qed.

(** ** [cxoUtils_processJsonArg] *)

(** X4: an argument that is NULL, or that is neither a dictionary nor a
    list, is handed to the encoder as it is: the encoder is the only
    collaborator called, the serializer is not, no reference is dropped,
    the buffer returned is the encoder's, and the status is -1 exactly when
    the encoder's is negative. *)
Theorem processJsonArg_plain_is_encoded_as_is
    (S : Type) (h : Handler S) (s : S) (arg : option PyObject)
    (buffer0 : cxoBuffer) :
  is_structured_arg arg = false ->
  let p := cxoUtils_processJsonArg arg buffer0 in
  let answer := (h (cxoBuffer_fromObject arg "UTF-8") s).1 in
  trace h p s = [cxoBuffer_fromObject arg "UTF-8"] /\
  result h p s = (if answer.1 <? 0 then -1 else 0, answer.2).
Proof.
  intros Hplain p answer. subst p answer.
  unfold trace, result, cxoUtils_processJsonArg.
  destruct arg as [a |].
  - simpl in Hplain. unfold is_structured in Hplain.
    rewrite Hplain. explore h; split; reflexivity.
  - explore h; split; reflexivity.
Qed.

(** X5: when the serializer fails on a dictionary or a list, the function
    returns -1 with the caller's buffer as it was: the encoder is never
    called and no reference is dropped. *)
Theorem processJsonArg_serializer_failure
    (S : Type) (h : Handler S) (s s1 : S) (arg : PyObject)
    (buffer0 : cxoBuffer) :
  is_structured arg = true ->
  h (PyObject_CallFunctionObjArgs_cxoJsonDumpFunction arg) s = (None, s1) ->
  let p := cxoUtils_processJsonArg (Some arg) buffer0 in
  result h p s = (-1, buffer0) /\
  final h p s = s1 /\
  trace h p s = [PyObject_CallFunctionObjArgs_cxoJsonDumpFunction arg].
Proof.
  intros Harg Hd p. subst p. unfold result, final, trace.
  rewrite (jsonArg_dumps_fails h arg buffer0 Harg s s1 Hd).
  repeat split.
Qed.

(** X6: when a dictionary or a list is serialized to [v] and [v] is encoded,
    the function returns 0 with the buffer the encoder built; it drops
    exactly one reference, the one to [v], as its last call, after the
    encoding; and it does not clear the buffer, which is now the
    caller's. *)
Theorem processJsonArg_success_hands_over_buffer
    (S : Type) (h : Handler S) (s s1 s2 : S) (arg : PyObject)
    (buffer0 : cxoBuffer) (v : PyObject) (status : Z) (buffer : cxoBuffer) :
  is_structured arg = true ->
  h (PyObject_CallFunctionObjArgs_cxoJsonDumpFunction arg) s = (Some v, s1) ->
  h (cxoBuffer_fromObject (Some v) "UTF-8") s1 = ((status, buffer), s2) ->
  0 <= status ->
  let p := cxoUtils_processJsonArg (Some arg) buffer0 in
  result h p s = (0, buffer) /\
  trace h p s =
    [PyObject_CallFunctionObjArgs_cxoJsonDumpFunction arg;
     cxoBuffer_fromObject (Some v) "UTF-8"; Py_DECREF v] /\
  occurrences (Py_DECREF v) (trace h p s) = 1%nat /\
  decrefs (trace h p s) = 1%nat /\
  buffer_clears (trace h p s) = 0%nat.
Proof.
  intros Harg Hd He Hst p. subst p. unfold result, trace.
  rewrite (jsonArg_encoded h arg buffer0 Harg s s1 s2 v status buffer
             Hd He Hst).
  simpl. repeat split; count_calls.
Qed.

(** X7: whatever the argument and whatever the collaborators answer,
    [cxoUtils_processJsonArg] never clears a buffer, never calls into
    ODPI-C, serializes at most once, encodes at most once, and drops at
    most one reference, and none unless it serialized. *)
Theorem processJsonArg_never_clears
    (S : Type) (h : Handler S) (s : S) (arg : option PyObject)
    (buffer0 : cxoBuffer) :
  let tr := trace h (cxoUtils_processJsonArg arg buffer0) s in
  buffer_clears tr = 0%nat /\
  count is_dpi_call tr = 0%nat /\
  (count is_dumps tr <= 1)%nat /\
  (decrefs tr <= count is_dumps tr)%nat.
Proof.
  intros tr. subst tr.
  unfold trace, cxoUtils_processJsonArg, processJsonArg_encode.
  destruct arg as [a |].
  - destruct (PyDict_Check a || PyList_Check a);
      explore h;
      repeat split; tally; lia.
  - explore h;
      repeat split; tally; lia.
Qed.

(** ** [cxoUtils_processSodaDocArg] *)

(** X8: a SODA document argument is neither serialized nor encoded.  The
    only ODPI-C call is [dpiSodaDoc_addRef] on the document's own handle.
    When it succeeds the function returns 0 and that handle, having called
    nothing else; when it fails the caller's handle is left as it was and
    the status is the one [cxoError_raiseAndReturnInt] gives. *)
Theorem processSodaDocArg_document
    (S : Type) (h : Handler S) (s : S) (flags : Z) (db : cxoSodaDatabase)
    (arg : PyObject) (handle : option dpiSodaDoc) :
  PyObject_TypeCheck_SodaDoc arg = true ->
  let p := cxoUtils_processSodaDocArg flags db arg handle in
  let addRef := h (dpiSodaDoc_addRef (doc_handle arg)) s in
  head (trace h p s) = Some (dpiSodaDoc_addRef (doc_handle arg)) /\
  count is_dpi_call (trace h p s) = 1%nat /\
  decrefs (trace h p s) = 0%nat /\
  buffer_clears (trace h p s) = 0%nat /\
  (0 <= addRef.1 ->
     result h p s = (0, doc_handle arg) /\
     trace h p s = [dpiSodaDoc_addRef (doc_handle arg)]) /\
  (addRef.1 < 0 ->
     result h p s = ((h cxoError_raiseAndReturnInt addRef.2).1, handle) /\
     trace h p s =
       [dpiSodaDoc_addRef (doc_handle arg); cxoError_raiseAndReturnInt]).
Proof.
  intros Hdoc p addRef. subst p addRef.
  unfold result, trace, cxoUtils_processSodaDocArg. rewrite Hdoc. simpl.
  destruct (h (dpiSodaDoc_addRef (doc_handle arg)) s) as [st s1]. simpl.
  destruct (st <? 0) eqn:Hst; simpl.
  - apply Z.ltb_lt in Hst.
    destruct (h cxoError_raiseAndReturnInt s1) as [r s2]. simpl.
    repeat split; try lia; tally; reflexivity.
  - apply Z.ltb_ge in Hst.
    repeat split; try lia; tally; reflexivity.
Qed.

(** X9: an argument that is not a SODA document, a dictionary or a list is
    refused: the function returns -1 with the caller's handle as it was, and
    its only call sets a [TypeError]; nothing is serialized, encoded,
    created or released. *)
Theorem processSodaDocArg_type_error
    (S : Type) (h : Handler S) (s : S) (flags : Z) (db : cxoSodaDatabase)
    (arg : PyObject) (handle : option dpiSodaDoc) :
  PyObject_TypeCheck_SodaDoc arg = false ->
  is_structured arg = false ->
  let p := cxoUtils_processSodaDocArg flags db arg handle in
  result h p s = (-1, handle) /\
  trace h p s =
    [PyErr_SetString PyExc_TypeError
       "value must be a SODA document or a dictionary or list"].
Proof.
  intros Hdoc Harg p. subst p.
  unfold result, trace, cxoUtils_processSodaDocArg.
  unfold is_structured in Harg. rewrite Hdoc, Harg. simpl.
  destruct (h _ s) as [[] s1]. split; reflexivity.
Qed.

(** X10: when the serializer fails on a dictionary or a list, the function
    returns -1 with the caller's handle as it was; the serializer is the only
    collaborator called. *)
Theorem processSodaDocArg_serializer_failure
    (S : Type) (h : Handler S) (s s1 : S) (flags : Z) (db : cxoSodaDatabase)
    (arg : PyObject) (handle : option dpiSodaDoc) :
  is_structured arg = true ->
  h (PyObject_CallFunctionObjArgs_cxoJsonDumpFunction arg) s = (None, s1) ->
  let p := cxoUtils_processSodaDocArg flags db arg handle in
  result h p s = (-1, handle) /\
  final h p s = s1 /\
  trace h p s = [PyObject_CallFunctionObjArgs_cxoJsonDumpFunction arg].
Proof.
  intros Harg Hd p. subst p. unfold result, final, trace.
  rewrite (sodaDoc_dumps_fails h flags db arg handle Harg s s1 Hd).
  repeat split.
Qed.

(** X11: when a dictionary or a list is serialized and encoded, exactly one
    document is asked for: from the database's handle, with the bytes and
    the length of the buffer as content, with no key and no media type, and
    with the default flags.  The buffer is cleared right after that call and
    not before, so the content is alive while the call reads it. *)
Theorem processSodaDocArg_creates_from_buffer
    (S : Type) (h : Handler S) (s s1 s2 : S) (flags : Z)
    (db : cxoSodaDatabase) (arg : PyObject) (handle : option dpiSodaDoc)
    (v : PyObject) (status : Z) (buffer : cxoBuffer) :
  is_structured arg = true ->
  h (PyObject_CallFunctionObjArgs_cxoJsonDumpFunction arg) s = (Some v, s1) ->
  h (cxoBuffer_fromObject (Some v) "UTF-8") s1 = ((status, buffer), s2) ->
  0 <= status ->
  let tr := trace h (cxoUtils_processSodaDocArg flags db arg handle) s in
  let create :=
    dpiSodaDb_createDocument (db_handle db) None 0 (ptr buffer) (size buffer)
      None 0 flags handle in
  count is_create_document tr = 1%nat /\
  tr !! 3%nat = Some create /\
  tr !! 4%nat = Some (cxoBuffer_clear buffer) /\
  buffer_clears (take 4 tr) = 0%nat.
Proof.
  intros Harg Hd He Hst tr create. subst tr.
  destruct (h create (h (Py_DECREF v) s2).2) as [[st' h'] s4] eqn:Hc.
  unfold trace.
  rewrite (sodaDoc_encoded h flags db arg handle Harg s s1 s2 s4 v status
             buffer st' h' Hd He Hst Hc).
  destruct (st' <? 0); simpl; repeat split; tally; reflexivity.
Qed.

(** X12: whatever the argument and whatever the collaborators answer,
    [cxoUtils_processSodaDocArg] clears exactly as many buffers as it asked
    documents for, at most one; it drops at most one reference, and none
    unless it serialized; and it never touches the native context. *)
Theorem processSodaDocArg_balanced
    (S : Type) (h : Handler S) (s : S) (flags : Z) (db : cxoSodaDatabase)
    (arg : PyObject) (handle : option dpiSodaDoc) :
  let tr := trace h (cxoUtils_processSodaDocArg flags db arg handle) s in
  buffer_clears tr = count is_create_document tr /\
  (count is_create_document tr <= 1)%nat /\
  (decrefs tr <= count is_dumps tr)%nat /\
  (count is_dumps tr <= 1)%nat /\
  count is_create_context tr = 0%nat.
Proof.
  intros tr. subst tr. unfold trace, cxoUtils_processSodaDocArg.
  destruct (PyObject_TypeCheck_SodaDoc arg);
    [| destruct (PyDict_Check arg || PyList_Check arg)];
    explore h;
    repeat split; tally; lia.
Qed.

(** X13: for an argument that is not a SODA document, the caller's handle
    can only be changed by the call that creates a document: on every path
    where no document is asked for, the function returns -1 and the handle
    is as it was. *)
Theorem processSodaDocArg_handle_kept_without_creation
    (S : Type) (h : Handler S) (s : S) (flags : Z) (db : cxoSodaDatabase)
    (arg : PyObject) (handle : option dpiSodaDoc) :
  PyObject_TypeCheck_SodaDoc arg = false ->
  let p := cxoUtils_processSodaDocArg flags db arg handle in
  count is_create_document (trace h p s) = 0%nat ->
  result h p s = (-1, handle).
Proof.
  intros Hdoc p. subst p. unfold result, trace, cxoUtils_processSodaDocArg.
  rewrite Hdoc. destruct (PyDict_Check arg || PyList_Check arg);
    explore h; tally; intros Hcount; try reflexivity; discriminate.
Qed.

(** ** [cxoUtils_getAdjustedEncoding] *)

Lemma uchar_zero (c : Ascii.ascii) : uchar c = 0 <-> is_nul c = true.
Proof.
  unfold uchar, is_nul. rewrite Ascii.eqb_eq. split.
  - intros H. rewrite <- (Ascii.ascii_nat_embedding c).
    replace (Ascii.nat_of_ascii c) with 0%nat by lia. reflexivity.
  - intros ->. reflexivity.
Qed.

Lemma uchar_inj (c d : Ascii.ascii) : uchar c = uchar d -> c = d.
Proof.
  unfold uchar. intros H.
  rewrite <- (Ascii.ascii_nat_embedding c), <- (Ascii.ascii_nat_embedding d).
  f_equal. lia.
Qed.

(** [strcmp] answers 0 exactly on strings that are equal up to their first
    NUL. *)
Lemma strcmp_eq (a b : string) : strcmp a b = 0 <-> c_str a = c_str b.
Proof.
  revert b. induction a as [| c a IH]; intros [| d b]; simpl.
  - tauto.
  - destruct (is_nul d) eqn:Hd.
    + apply uchar_zero in Hd. rewrite Hd. tauto.
    + split; [| discriminate]. intros H.
      assert (Hz : uchar d = 0) by lia.
      apply uchar_zero in Hz. congruence.
  - destruct (is_nul c) eqn:Hc.
    + apply uchar_zero in Hc. rewrite Hc. tauto.
    + split; [| discriminate]. intros H.
      apply uchar_zero in H. congruence.
  - destruct (Ascii.eqb c d) eqn:Hcd.
    + apply Ascii.eqb_eq in Hcd. subst d.
      destruct (is_nul c); [tauto |].
      rewrite IH. split; [congruence | intros H; injection H; tauto].
    + apply Ascii.eqb_neq in Hcd. split.
      * intros H. exfalso. apply Hcd, uchar_inj. lia.
      * intros H. exfalso. apply Hcd.
        destruct (is_nul c) eqn:Hc, (is_nul d) eqn:Hd; try discriminate.
        -- unfold is_nul in Hc, Hd. apply Ascii.eqb_eq in Hc, Hd. congruence.
        -- injection H. tauto.
Qed.

(** X14: the name UTF-16 is rewritten to the explicit name of the host's
    byte order: UTF-16LE where the four bytes 0, 1, 2, 3 read as
    0x03020100, UTF-16BE on a big-endian host. *)
Theorem getAdjustedEncoding_resolves_utf16 (order : ByteOrder) (e : string) :
  c_str e = "UTF-16"%string ->
  cxoUtils_getAdjustedEncoding order (Some e) =
  Some (match order with
        | LittleEndian => "UTF-16LE"
        | BigEndian => "UTF-16BE"
        end)%string.
Proof.
  intros He. unfold cxoUtils_getAdjustedEncoding.
  assert (Hcmp : strcmp e "UTF-16" = 0) by (apply strcmp_eq; rewrite He; reflexivity).
  rewrite Hcmp. simpl. destruct order; reflexivity.
Qed.

(** X15: every other encoding name comes back as it went in, on either byte
    order: an absent name stays absent, and names that differ from UTF-16
    only by case or by a suffix (utf-16, UTF-16LE, UTF-16BE) are not
    touched. *)
Theorem getAdjustedEncoding_keeps_other_names (order : ByteOrder) :
  cxoUtils_getAdjustedEncoding order None = None /\
  forall e : string,
    c_str e <> "UTF-16"%string ->
    cxoUtils_getAdjustedEncoding order (Some e) = Some e.
Proof.
  split; [reflexivity |]. intros e Hne.
  unfold cxoUtils_getAdjustedEncoding.
  destruct (strcmp e "UTF-16" =? 0) eqn:Hcmp; [| reflexivity].
  apply Z.eqb_eq, strcmp_eq in Hcmp. exfalso.
  apply Hne. rewrite Hcmp. reflexivity.
Qed.

(** X16: the function never answers with the name UTF-16 itself: whatever
    it returns compares different from it. *)
Theorem getAdjustedEncoding_never_ambiguous (order : ByteOrder)
    (encoding : option string) (r : string) :
  cxoUtils_getAdjustedEncoding order encoding = Some r ->
  strcmp r "UTF-16" <> 0.
Proof.
  unfold cxoUtils_getAdjustedEncoding.
  destruct encoding as [e |]; [| discriminate].
  destruct (strcmp e "UTF-16" =? 0) eqn:Hcmp; simpl.
  - destruct order; simpl; intros H; injection H as <-; vm_compute; discriminate.
  - intros H. injection H as <-. apply Z.eqb_neq. exact Hcmp.
Qed.

(** X17: adjusting twice is adjusting once. *)
Theorem getAdjustedEncoding_idempotent (order : ByteOrder)
    (encoding : option string) :
  cxoUtils_getAdjustedEncoding order
    (cxoUtils_getAdjustedEncoding order encoding) =
  cxoUtils_getAdjustedEncoding order encoding.
Proof.
  destruct encoding as [e |]; [| reflexivity].
  destruct (strcmp e "UTF-16" =? 0) eqn:Hcmp.
  - assert (Hadj : cxoUtils_getAdjustedEncoding order (Some e) =
                   Some (match order with
                         | LittleEndian => "UTF-16LE"
                         | BigEndian => "UTF-16BE"
                         end)%string).
    { unfold cxoUtils_getAdjustedEncoding. rewrite Hcmp.
      destruct order; reflexivity. }
    rewrite Hadj. destruct order; reflexivity.
  - assert (Hadj : cxoUtils_getAdjustedEncoding order (Some e) = Some e).
    { unfold cxoUtils_getAdjustedEncoding. rewrite Hcmp. reflexivity. }
    rewrite !Hadj. reflexivity.
Qed.

(** ** [cxoUtils_getBooleanValue] *)

(** X18: without an object the value is the default, the status is 0 and
    nothing is called.  With an object the default plays no role: the only
    call is [PyObject_IsTrue], the value stored is its answer, and the
    status is -1 exactly when that answer is negative, in which case the
    negative answer is what the caller's variable holds. *)
Theorem getBooleanValue_behaviour
    (S : Type) (h : HostHandler S) (s : S) (obj : option PyObject)
    (defaultValue : Z) :
  let p := cxoUtils_getBooleanValue obj defaultValue in
  match obj with
  | None => hostRun h p s = ((0, defaultValue), s, [])
  | Some o =>
      let answer := (h (PyObject_IsTrue o) s).1 in
      hostTrace h p s = [PyObject_IsTrue o] /\
      (hostResult h p s).2 = answer /\
      (hostResult h p s).1 = (if answer <? 0 then -1 else 0)
  end.
Proof.
  intros p. subst p. destruct obj as [o |]; [| reflexivity].
  unfold hostTrace, hostResult, cxoUtils_getBooleanValue. simpl.
  destruct (h (PyObject_IsTrue o) s) as [v s1]. simpl.
  destruct (v <? 0); simpl; repeat split.
Qed.

(** ** [cxoUtils_getModuleAndName] *)

(** X19: when the lookup of [__module__] fails, the function returns -1
    at once: [__name__] is not looked up, no reference is dropped, the
    caller's module pointer is NULL and its name pointer is as it was. *)
Theorem getModuleAndName_module_failure
    (S : Type) (h : HostHandler S) (s s1 : S) (type : PyObject)
    (name : option PyObject) :
  h (PyObject_GetAttrString type "__module__") s = (None, s1) ->
  hostRun h (cxoUtils_getModuleAndName type name) s =
  ((-1, None, name), s1, [PyObject_GetAttrString type "__module__"]).
Proof.
  intros Hm. unfold cxoUtils_getModuleAndName. simpl. rewrite Hm.
  reflexivity.
Qed.

(** X20: when [__module__] is found and the lookup of [__name__] fails,
    the function returns -1 after dropping the reference to the module,
    once, as its last call and its only release.  The caller's name pointer
    is NULL; its module pointer still holds the address of the module just
    released. *)
Theorem getModuleAndName_name_failure
    (S : Type) (h : HostHandler S) (s s1 s2 : S) (type : PyObject)
    (name : option PyObject) (m : PyObject) :
  h (PyObject_GetAttrString type "__module__") s = (Some m, s1) ->
  h (PyObject_GetAttrString type "__name__") s1 = (None, s2) ->
  let p := cxoUtils_getModuleAndName type name in
  hostResult h p s = (-1, Some m, None) /\
  hostTrace h p s =
    [PyObject_GetAttrString type "__module__";
     PyObject_GetAttrString type "__name__"; OfCall (Py_DECREF m)] /\
  hostDecrefs (hostTrace h p s) = 1%nat.
Proof.
  intros Hm Hn p. subst p.
  unfold hostResult, hostTrace, cxoUtils_getModuleAndName.
  simpl. rewrite Hm. simpl. rewrite Hn. simpl.
  destruct (h (OfCall (Py_DECREF m)) s2) as [[] s3]. simpl.
  repeat split.
Qed.

(** X21: when both lookups succeed the function returns 0 with the two
    objects found, [__module__] first and [__name__] second, both on the
    type it was given; it has dropped no reference, so both belong to the
    caller. *)
Theorem getModuleAndName_success
    (S : Type) (h : HostHandler S) (s s1 s2 : S) (type : PyObject)
    (name : option PyObject) (m n : PyObject) :
  h (PyObject_GetAttrString type "__module__") s = (Some m, s1) ->
  h (PyObject_GetAttrString type "__name__") s1 = (Some n, s2) ->
  hostRun h (cxoUtils_getModuleAndName type name) s =
  ((0, Some m, Some n), s2,
   [PyObject_GetAttrString type "__module__";
    PyObject_GetAttrString type "__name__"]).
Proof.
  intros Hm Hn. unfold cxoUtils_getModuleAndName.
  simpl. rewrite Hm. simpl. rewrite Hn. reflexivity.
Qed.

(** ** [cxoUtils_formatString] *)

(** X22: when the format cannot be decoded, the function returns NULL
    without formatting, after dropping the reference to the arguments, once;
    the decoder was given the format and its length. *)
Theorem formatString_decode_failure
    (S : Type) (h : HostHandler S) (s s1 : S) (format : string)
    (args : PyObject) :
  h (PyUnicode_DecodeASCII format (Z.of_nat (strlen format)) None) s = (None, s1) ->
  let p := cxoUtils_formatString format (Some args) in
  hostResult h p s = None /\
  hostTrace h p s =
    [PyUnicode_DecodeASCII format (Z.of_nat (strlen format)) None;
     OfCall (Py_DECREF args)].
Proof.
  intros Hd p. subst p. unfold hostResult, hostTrace, cxoUtils_formatString.
  simpl. rewrite Hd. simpl.
  destruct (h (OfCall (Py_DECREF args)) s1) as [[] s2]. split; reflexivity.
Qed.

(** X23: when the format is decoded to [formatObj], the function returns
    what [PyUnicode_Format] answers, NULL included, and in both cases drops
    the reference to the arguments and then the one to [formatObj], after the
    formatting and not before. *)
Theorem formatString_formats_then_releases
    (S : Type) (h : HostHandler S) (s s1 : S) (format : string)
    (args formatObj : PyObject) :
  h (PyUnicode_DecodeASCII format (Z.of_nat (strlen format)) None) s =
    (Some formatObj, s1) ->
  let p := cxoUtils_formatString format (Some args) in
  hostResult h p s = (h (PyUnicode_Format formatObj args) s1).1 /\
  hostTrace h p s =
    [PyUnicode_DecodeASCII format (Z.of_nat (strlen format)) None;
     PyUnicode_Format formatObj args;
     OfCall (Py_DECREF args); OfCall (Py_DECREF formatObj)] /\
  hostDecrefs (hostTrace h p s) = 2%nat.
Proof.
  intros Hd p. subst p. unfold hostResult, hostTrace, cxoUtils_formatString.
  simpl. rewrite Hd. simpl.
  destruct (h (PyUnicode_Format formatObj args) s1) as [r s2]. simpl.
  destruct (h (OfCall (Py_DECREF args)) s2) as [[] s3]. simpl.
  destruct (h (OfCall (Py_DECREF formatObj)) s3) as [[] s4]. simpl.
  repeat split.
Qed.

(** X24: the reference to the arguments is always consumed.  With NULL
    arguments nothing is called and NULL is returned; with arguments, on
    every path, the decoder is called first, the reference to the arguments
    is dropped, and no more than two references are dropped in all. *)
Theorem formatString_consumes_arguments
    (S : Type) (h : HostHandler S) (s : S) (format : string)
    (args : option PyObject) :
  let p := cxoUtils_formatString format args in
  match args with
  | None => hostRun h p s = (None, s, [])
  | Some a =>
      head (hostTrace h p s) =
        Some (PyUnicode_DecodeASCII format (Z.of_nat (strlen format)) None) /\
      In (OfCall (Py_DECREF a)) (hostTrace h p s) /\
      (1 <= hostDecrefs (hostTrace h p s) <= 2)%nat
  end.
Proof.
  intros p. subst p. destruct args as [a |]; [| reflexivity].
  unfold hostTrace, cxoUtils_formatString. simpl.
  destruct (h (PyUnicode_DecodeASCII format (Z.of_nat (strlen format)) None) s)
    as [[f |] s1]; simpl.
  - destruct (h (PyUnicode_Format f a) s1) as [r s2]. simpl.
    destruct (h (OfCall (Py_DECREF a)) s2) as [[] s3]. simpl.
    destruct (h (OfCall (Py_DECREF f)) s3) as [[] s4]. simpl.
    repeat split; [tauto | |]; unfold hostDecrefs; simpl; lia.
  - destruct (h (OfCall (Py_DECREF a)) s1) as [[] s2]. simpl.
    repeat split; [tauto | |]; unfold hostDecrefs; simpl; lia.
Qed.

(** ** The further properties at concrete inputs *)

Lemma initializeDPI_initialized_is_inert_witness :
  let p := cxoUtils_initializeDPI "cx_Oracle" 4 1 (Some someParams)
             initialized in
  (result harness p (startRuntime noFaults)).2 = initialized /\
  (result harness p (startRuntime noFaults)).1 = -1 /\
  count is_dpi_call (trace harness p (startRuntime noFaults)) = 0%nat.
Proof.
  intros p.
  destruct (initializeDPI_initialized_is_inert Runtime harness
              (startRuntime noFaults) "cx_Oracle" 4 1 (Some someParams)
              initialized 5%positive eq_refl) as (Hg & Hn & _ & Hp).
  destruct Hp as [Hr _]; [discriminate |].
  repeat split; assumption.
Defined.

Lemma initializeDPI_twice_witness :
  let rt := startRuntime noFaults in
  let first := cxoUtils_initializeDPI "cx_Oracle" 4 1 None uninitialized in
  let g1 := (result harness first rt).2 in
  let second :=
    cxoUtils_initializeDPI "cx_Oracle" 4 1 (Some someParams) g1 in
  let rt1 := with_contexts (fun X => {[1%positive]} ∪ X) rt in
  result harness first rt =
    (0, {| cxoDpiContext := Some 1%positive;
           cxoClientVersionInfo := harnessVersion |}) /\
  final harness first rt = rt1 /\
  (result harness second rt1).2 = g1 /\
  (result harness second rt1).1 = -1 /\
  count is_dpi_call (trace harness second rt1) = 0%nat.
Proof.
  intros rt first g1 second rt1.
  apply (initializeDPI_twice Runtime harness rt rt1 rt1 "cx_Oracle" 4 1
           None (Some someParams) uninitialized 0 1%positive noError
           0 harnessVersion);
    [reflexivity | reflexivity | lia | reflexivity | lia].
Defined.

Lemma initializeDPI_effective_parameters_witness :
  let tr := trace harness
              (cxoUtils_initializeDPI "cx_Oracle" 4 1 (Some someParams)
                 uninitialized)
              (startRuntime noFaults) in
  exists lp,
    head tr = Some (dpiContext_createWithParams 4 1 lp) /\
    count is_create_context tr = 1%nat /\
    defaultEncoding lp = Some "UTF-8"%string /\
    defaultDriverName lp = Some "app"%string /\
    loadErrorUrl lp =
      Some "https://cx-oracle.readthedocs.io/en/latest/user_guide/installation.html"%string /\
    oracleClientLibDir lp = Some "/opt/oracle"%string /\
    oracleClientConfigDir lp = None.
Proof.
  exact (initializeDPI_effective_parameters Runtime harness
           (startRuntime noFaults) "cx_Oracle" 4 1 (Some someParams)
           uninitialized eq_refl).
Defined.

Lemma processJsonArg_plain_is_encoded_as_is_witness :
  let p := cxoUtils_processJsonArg (Some theString) emptyBuffer in
  let rt := startRuntime noFaults in
  trace harness p rt = [cxoBuffer_fromObject (Some theString) "UTF-8"] /\
  result harness p rt =
    (0, {| ptr := Some "already text"%string; size := 12;
           obj := Some {| ob_addr := 2; ob_kind := KBytes "already text" |} |}).
Proof.
  exact (processJsonArg_plain_is_encoded_as_is Runtime harness
           (startRuntime noFaults) (Some theString) emptyBuffer eq_refl).
Defined.

Lemma processJsonArg_serializer_failure_witness :
  let p := cxoUtils_processJsonArg (Some theDict) theBuffer in
  let rt := startRuntime dumpsFails in
  result harness p rt = (-1, theBuffer) /\
  final harness p rt = raise rt /\
  trace harness p rt =
    [PyObject_CallFunctionObjArgs_cxoJsonDumpFunction theDict].
Proof.
  exact (processJsonArg_serializer_failure Runtime harness
           (startRuntime dumpsFails) (raise (startRuntime dumpsFails))
           theDict theBuffer eq_refl eq_refl).
Defined.

Lemma processJsonArg_success_hands_over_buffer_witness :
  let p := cxoUtils_processJsonArg (Some theDict) emptyBuffer in
  let rt := startRuntime noFaults in
  result harness p rt = (0, theBuffer) /\
  trace harness p rt =
    [PyObject_CallFunctionObjArgs_cxoJsonDumpFunction theDict;
     cxoBuffer_fromObject (Some theJson) "UTF-8"; Py_DECREF theJson] /\
  occurrences (Py_DECREF theJson) (trace harness p rt) = 1%nat /\
  decrefs (trace harness p rt) = 1%nat /\
  buffer_clears (trace harness p rt) = 0%nat.
Proof.
  apply (processJsonArg_success_hands_over_buffer Runtime harness
           (startRuntime noFaults)
           (with_objects alloc (startRuntime noFaults))
           (with_objects alloc (with_objects alloc (startRuntime noFaults)))
           theDict emptyBuffer theJson 0 theBuffer);
    [reflexivity | reflexivity | reflexivity | lia].
Defined.

Lemma processSodaDocArg_document_witness :
  let p := cxoUtils_processSodaDocArg 0 theDb theDoc None in
  result harness p (startRuntime noFaults) = (0, Some 9%positive) /\
  trace harness p (startRuntime noFaults) =
    [dpiSodaDoc_addRef (Some 9%positive)] /\
  result harness p (startRuntime addRefFails) = (-1, None) /\
  trace harness p (startRuntime addRefFails) =
    [dpiSodaDoc_addRef (Some 9%positive); cxoError_raiseAndReturnInt].
Proof.
  intros p.
  destruct (processSodaDocArg_document Runtime harness
              (startRuntime noFaults) 0 theDb theDoc None eq_refl)
    as (_ & _ & _ & _ & Hok & _).
  destruct (processSodaDocArg_document Runtime harness
              (startRuntime addRefFails) 0 theDb theDoc None eq_refl)
    as (_ & _ & _ & _ & _ & Hfail).
  destruct Hok as [Hok1 Hok2]; [simpl; lia |].
  destruct Hfail as [Hfail1 Hfail2]; [simpl; lia |].
  repeat split; assumption.
Defined.

Lemma processSodaDocArg_type_error_witness :
  let p := cxoUtils_processSodaDocArg 0 theDb theInt (Some 4%positive) in
  result harness p (startRuntime noFaults) = (-1, Some 4%positive) /\
  trace harness p (startRuntime noFaults) =
    [PyErr_SetString PyExc_TypeError
       "value must be a SODA document or a dictionary or list"].
Proof.
  exact (processSodaDocArg_type_error Runtime harness (startRuntime noFaults)
           0 theDb theInt (Some 4%positive) eq_refl eq_refl).
Defined.

Lemma processSodaDocArg_serializer_failure_witness :
  let p := cxoUtils_processSodaDocArg 0 theDb theDict (Some 4%positive) in
  let rt := startRuntime dumpsFails in
  result harness p rt = (-1, Some 4%positive) /\
  final harness p rt = raise rt /\
  trace harness p rt =
    [PyObject_CallFunctionObjArgs_cxoJsonDumpFunction theDict].
Proof.
  exact (processSodaDocArg_serializer_failure Runtime harness
           (startRuntime dumpsFails) (raise (startRuntime dumpsFails))
           0 theDb theDict (Some 4%positive) eq_refl eq_refl).
Defined.

Lemma processSodaDocArg_creates_from_buffer_witness :
  let tr := trace harness (cxoUtils_processSodaDocArg 0 theDb theDict None)
              (startRuntime noFaults) in
  count is_create_document tr = 1%nat /\
  tr !! 3%nat =
    Some (dpiSodaDb_createDocument (Some 7%positive) None 0
            (Some "{}"%string) 2 None 0 0 None) /\
  tr !! 4%nat = Some (cxoBuffer_clear theBuffer) /\
  buffer_clears (take 4 tr) = 0%nat.
Proof.
  apply (processSodaDocArg_creates_from_buffer Runtime harness
           (startRuntime noFaults)
           (with_objects alloc (startRuntime noFaults))
           (with_objects alloc (with_objects alloc (startRuntime noFaults)))
           0 theDb theDict None theJson 0 theBuffer);
    [reflexivity | reflexivity | reflexivity | lia].
Defined.

Lemma processSodaDocArg_handle_kept_without_creation_witness :
  result harness
    (cxoUtils_processSodaDocArg 0 theDb theDict (Some 4%positive))
    (startRuntime encodeFails) = (-1, Some 4%positive).
Proof.
  exact (processSodaDocArg_handle_kept_without_creation Runtime harness
           (startRuntime encodeFails) 0 theDb theDict (Some 4%positive)
           eq_refl eq_refl).
Defined.

Lemma getAdjustedEncoding_resolves_utf16_witness :
  cxoUtils_getAdjustedEncoding LittleEndian (Some "UTF-16"%string) =
    Some "UTF-16LE"%string /\
  cxoUtils_getAdjustedEncoding BigEndian (Some "UTF-16"%string) =
    Some "UTF-16BE"%string.
Proof.
  split.
  - exact (getAdjustedEncoding_resolves_utf16 LittleEndian "UTF-16" eq_refl).
  - exact (getAdjustedEncoding_resolves_utf16 BigEndian "UTF-16" eq_refl).
Defined.

Lemma getAdjustedEncoding_keeps_other_names_witness :
  cxoUtils_getAdjustedEncoding LittleEndian (Some "utf-16"%string) =
    Some "utf-16"%string /\
  cxoUtils_getAdjustedEncoding BigEndian (Some "UTF-16LE"%string) =
    Some "UTF-16LE"%string /\
  cxoUtils_getAdjustedEncoding LittleEndian (Some "UTF-8"%string) =
    Some "UTF-8"%string.
Proof.
  split; [| split].
  - apply (proj2 (getAdjustedEncoding_keeps_other_names LittleEndian)).
    simpl. discriminate.
  - apply (proj2 (getAdjustedEncoding_keeps_other_names BigEndian)).
    simpl. discriminate.
  - apply (proj2 (getAdjustedEncoding_keeps_other_names LittleEndian)).
    simpl. discriminate.
Defined.

Lemma getAdjustedEncoding_never_ambiguous_witness :
  strcmp "UTF-16BE" "UTF-16" <> 0.
Proof.
  exact (getAdjustedEncoding_never_ambiguous BigEndian
           (Some "UTF-16"%string) "UTF-16BE" eq_refl).
Defined.

Lemma getModuleAndName_module_failure_witness :
  hostRun (hostHarness moduleFails)
    (cxoUtils_getModuleAndName theInt (Some theString))
    (startRuntime noFaults) =
  ((-1, None, Some theString), raise (startRuntime noFaults),
   [PyObject_GetAttrString theInt "__module__"]).
Proof.
  exact (getModuleAndName_module_failure Runtime (hostHarness moduleFails)
           (startRuntime noFaults) (raise (startRuntime noFaults))
           theInt (Some theString) eq_refl).
Defined.

Lemma getModuleAndName_name_failure_witness :
  let p := cxoUtils_getModuleAndName theInt None in
  let m := {| ob_addr := 2; ob_kind := KUnicode "__module__" |} in
  let rt := startRuntime noFaults in
  hostResult (hostHarness nameFails) p rt = (-1, Some m, None) /\
  hostTrace (hostHarness nameFails) p rt =
    [PyObject_GetAttrString theInt "__module__";
     PyObject_GetAttrString theInt "__name__"; OfCall (Py_DECREF m)] /\
  hostDecrefs (hostTrace (hostHarness nameFails) p rt) = 1%nat.
Proof.
  intros p m rt.
  exact (getModuleAndName_name_failure Runtime (hostHarness nameFails)
           rt (with_objects alloc rt) (raise (with_objects alloc rt))
           theInt None m eq_refl eq_refl).
Defined.

Lemma getModuleAndName_success_witness :
  let rt := startRuntime noFaults in
  hostRun (hostHarness plainScript) (cxoUtils_getModuleAndName theInt None) rt =
  ((0, Some {| ob_addr := 2; ob_kind := KUnicode "__module__" |},
       Some {| ob_addr := 3; ob_kind := KUnicode "__name__" |}),
   with_objects alloc (with_objects alloc rt),
   [PyObject_GetAttrString theInt "__module__";
    PyObject_GetAttrString theInt "__name__"]).
Proof.
  intros rt.
  exact (getModuleAndName_success Runtime (hostHarness plainScript)
           rt (with_objects alloc rt)
           (with_objects alloc (with_objects alloc rt))
           theInt None _ _ eq_refl eq_refl).
Defined.

Lemma formatString_decode_failure_witness :
  let p := cxoUtils_formatString "%s: %s" (Some theString) in
  let rt := startRuntime noFaults in
  hostResult (hostHarness decodeFails) p rt = None /\
  hostTrace (hostHarness decodeFails) p rt =
    [PyUnicode_DecodeASCII "%s: %s" 6 None; OfCall (Py_DECREF theString)].
Proof.
  exact (formatString_decode_failure Runtime (hostHarness decodeFails)
           (startRuntime noFaults) (raise (startRuntime noFaults))
           "%s: %s" theString eq_refl).
Defined.

Lemma formatString_formats_then_releases_witness :
  let p := cxoUtils_formatString "%s: %s" (Some theString) in
  let rt := startRuntime noFaults in
  let formatObj := {| ob_addr := 2; ob_kind := KUnicode "%s: %s" |} in
  hostResult (hostHarness plainScript) p rt =
    Some {| ob_addr := 3; ob_kind := KUnicode "%s: %s" |} /\
  hostTrace (hostHarness plainScript) p rt =
    [PyUnicode_DecodeASCII "%s: %s" 6 None; PyUnicode_Format formatObj theString;
     OfCall (Py_DECREF theString); OfCall (Py_DECREF formatObj)] /\
  hostDecrefs (hostTrace (hostHarness plainScript) p rt) = 2%nat.
Proof.
  intros p rt formatObj.
  exact (formatString_formats_then_releases Runtime (hostHarness plainScript)
           rt (with_objects alloc rt) "%s: %s" theString formatObj eq_refl).
Defined.
